(** * Quantum farming decision support: the decoding core

    A shallow embedding of the three decision procedures of the repository

      - [quantum/algorithms/irrigation_optimizer.py]  (allocator),
      - [quantum/algorithms/pest_forecaster.py]       (risk classifier),
      - [quantum/algorithms/yield_predictor.py]       (variational regressor),
      - [quantum/utils/quantum_backend.py]            (backend configuration),

    and the properties of their decoding layers.

    Conventions.
      - Python floats are idealised as exact rationals ([Q]); the non-finite
        values numpy produces on a division by zero are kept ([npfloat]).
      - Exceptions are values of [exn]; a computation that may raise returns a
        [result].  Code that also touches the outside world (the simulator's
        sampler, numpy's global generator, the optimizer) lives in the
        state-and-exception monad [M S], whose state survives a raise, as
        in Python.
      - Qiskit, scikit-learn and scipy are not part of the repository: the
        objects the code obtains from them (simulator, scaler, ansatz,
        minimizer) are fields of the records that model [self], exactly where
        the Python objects keep them, and the theorems quantify over them. *)

From Stdlib Require Import QArith Qminmax Lqa Lia.
From Stdlib Require Import List String Ascii Bool Arith ZArith Znat.
From Stdlib Require Import DecimalString.
Import ListNotations.

Set Implicit Arguments.

(* ================================================================== *)
(** ** Python runtime: exceptions, results, the effect monad           *)
(* ================================================================== *)

Inductive exn : Type :=
| ValueError (msg : string)
| ZeroDivisionError (msg : string)
| CircuitError (msg : string)
| IndexError (msg : string)
| AttributeError (msg : string)
| LibraryError (msg : string).

Inductive result (A : Type) : Type :=
| Ok (a : A)
| Raise (e : exn).

Arguments Ok {A} a.
Arguments Raise {A} e.

Definition rbind {A B} (r : result A) (k : A -> result B) : result B :=
  match r with
  | Ok a => k a
  | Raise e => Raise e
  end.

(** [M S A]: a computation over a state [S] that returns an [A] or raises. *)
Definition M (S A : Type) : Type := S -> result A * S.

Definition ret {S A} (a : A) : M S A := fun s => (Ok a, s).

Definition raise {S A} (e : exn) : M S A := fun s => (Raise e, s).

Definition bind {S A B} (c : M S A) (k : A -> M S B) : M S B :=
  fun s =>
    match c s with
    | (Ok a, s') => k a s'
    | (Raise e, s') => (Raise e, s')
    end.

(** A pure computation that may raise, run inside [M]. *)
Definition lift {S A} (r : result A) : M S A := fun s => (r, s).

(** [try: body except Exception: handler] *)
Definition try_except {S A} (body : M S A) (handler : exn -> M S A) : M S A :=
  fun s =>
    match body s with
    | (Ok a, s') => (Ok a, s')
    | (Raise e, s') => handler e s'
    end.

Declare Scope py_scope.
Delimit Scope py_scope with py.

Notation "x <- c ;; k" := (bind c (fun x => k))
  (at level 61, c at next level, right associativity) : py_scope.
Notation "' pat <- c ;; k" := (bind c (fun x => match x with pat => k end))
  (at level 61, pat pattern, c at next level, right associativity) : py_scope.
Notation "x <~ c ;; k" := (rbind c (fun x => k))
  (at level 61, c at next level, right associativity) : py_scope.

Open Scope py_scope.

(** [for x in xs: acc = body(acc, x)] with a body that may raise. *)
Fixpoint for_each {A B} (xs : list A) (acc : B) (body : B -> A -> result B)
  : result B :=
  match xs with
  | [] => Ok acc
  | x :: xs' => acc' <~ body acc x ;; for_each xs' acc' body
  end.

(** Python's [max(iterable, key=f)]: the first item whose key is maximal;
    a later item replaces the current one only when its key is strictly
    greater.  Raises [ValueError] on an empty iterable. *)
Fixpoint max_from {A} (key : A -> nat) (best : A) (xs : list A) : A :=
  match xs with
  | [] => best
  | x :: xs' => max_from key (if key best <? key x then x else best) xs'
  end.

Definition py_max {A} (key : A -> nat) (xs : list A) : result A :=
  match xs with
  | [] => Raise (ValueError "max() arg is an empty sequence")
  | x :: xs' => Ok (max_from key x xs')
  end.

(** [dict.get(key, default)] on a dict with string keys. *)
Fixpoint dict_get {V} (d : list (string * V)) (k : string) (default : V) : V :=
  match d with
  | [] => default
  | (k', v) :: d' => if String.eqb k' k then v else dict_get d' k default
  end.

(* ================================================================== *)
(** ** Qiskit objects: circuits, outcome counts, backends              *)
(* ================================================================== *)

(** Rotation angles stay symbolic in pi: [pi_times x] is [x * np.pi],
    [radians x] is the plain float [x]. *)
Inductive angle : Type :=
| radians (x : Q)
| pi_times (x : Q).

Inductive instruction : Type :=
| h (q : nat)
| rx (theta : angle) (q : nat)
| ry (theta : angle) (q : nat)
| rz (theta : angle) (q : nat)
| rzz (theta : angle) (q1 q2 : nat)
| cx (q1 q2 : nat)
| barrier
| measure_all.

Record QuantumCircuit : Type := mkCircuit {
  qc_num_qubits : nat;
  qc_data : list instruction
}.

Definition new_circuit (n : nat) : QuantumCircuit := mkCircuit n [].

(** Qubit indexes an instruction acts on. *)
Definition qargs (i : instruction) : list nat :=
  match i with
  | h q | rx _ q | ry _ q | rz _ q => [q]
  | rzz _ q1 q2 | cx q1 q2 => [q1; q2]
  | barrier | measure_all => []
  end.

(** Appending an instruction; Qiskit raises [CircuitError] when an index is
    not a qubit of the circuit. *)
Definition append (i : instruction) (qc : QuantumCircuit) : result QuantumCircuit :=
  if forallb (fun q => q <? qc_num_qubits qc) (qargs i)
  then Ok (mkCircuit (qc_num_qubits qc) (qc_data qc ++ [i]))
  else Raise (CircuitError "Index out of range.").

(** A gate method called with [range(n)]: one instruction per qubit. *)
Definition append_range (g : nat -> instruction) (n : nat) (qc : QuantumCircuit)
  : result QuantumCircuit :=
  for_each (seq 0 n) qc (fun qc q => append (g q) qc).

(** The dict returned by [result.get_counts()]: outcome bitstring to number of
    shots, in the dict's iteration order. *)
Definition Counts : Type := list (string * nat).

Definition keys (c : Counts) : list string := map fst c.
Definition values (c : Counts) : list nat := map snd c.

(** [counts.get]: [max] only ever calls it on keys of [counts]. *)
Definition counts_get (c : Counts) (k : string) : nat := dict_get c k 0%nat.

Definition py_sum (xs : list nat) : nat := fold_left Nat.add xs 0%nat.

(** A backend handle.  [transpile(circuit, backend)] may reject a circuit;
    [backend.run(circuit, shots=..., seed_simulator=...).result().get_counts()]
    samples the circuit.  The sampler draws on the state [W] (the generator it
    seeds itself from when no seed is given) and may raise. *)
Record Backend (W : Type) : Type := mkBackend {
  transpile : QuantumCircuit -> result QuantumCircuit;
  run : QuantumCircuit -> nat -> option Z -> M W Counts
}.

(* ================================================================== *)
(** ** quantum/algorithms/irrigation_optimizer.py                      *)
(* ================================================================== *)

Module QuantumIrrigationOptimizer.
Section Class.
Context {W : Type}.

Record t : Type := mk {
  n_qubits : nat;
  depth : nat;
  shots : nat;
  simulator : Backend W
}.

(** [__init__(self, settings)]; the simulator is the freshly made
    [AerSimulator()]. *)
Definition __init__ (settings : list (string * nat)) (aer : Backend W) : t :=
  {| n_qubits := dict_get settings "n_qubits" 5%nat;
     depth := dict_get settings "circuit_depth" 2%nat;
     shots := dict_get settings "shots" 1024%nat;
     simulator := aer |}.

(** One cost-and-mixer layer of [_create_qaoa_circuit]. *)
Definition qaoa_layer (n_qubits : nat) (circuit : QuantumCircuit)
  : result QuantumCircuit :=
  circuit <~ for_each (seq 0 (n_qubits - 1)) circuit
               (fun qc i => append (rzz (pi_times (1 # 2)) i (i + 1)) qc) ;;
  circuit <~ append barrier circuit ;;
  circuit <~ append_range (rx (pi_times (1 # 3))) n_qubits circuit ;;
  append barrier circuit.

Definition _create_qaoa_circuit (self : t) (n_qubits : nat)
  : result QuantumCircuit :=
  let circuit := new_circuit n_qubits in
  circuit <~ append_range h n_qubits circuit ;;
  circuit <~ append barrier circuit ;;
  circuit <~ for_each (seq 0 (depth self)) circuit
               (fun qc _ => qaoa_layer n_qubits qc) ;;
  append measure_all circuit.

Record Zone : Type := mkZone { requirement : Q }.

(** The post-processing of [optimize]: zip zones with the characters of the
    winning bitstring. *)
Definition decode (zone_data : list Zone) (best_state : string) : list Q :=
  map (fun zb : Zone * ascii =>
         let (zone, bit) := zb in
         if Ascii.eqb bit "1" then requirement zone * 0.8 else 0)
      (combine zone_data (list_ascii_of_string best_state)).

Definition optimize (self : t) (zone_data : list Zone)
  : M W (list Q * Counts * QuantumCircuit) :=
  let n_zones := List.length zone_data in
  circuit <- lift (_create_qaoa_circuit self n_zones) ;;
  t_circuit <- lift (transpile (simulator self) circuit) ;;
  counts <- run (simulator self) t_circuit (shots self) None ;;
  best_state <- lift (py_max (counts_get counts) (keys counts)) ;;
  let optimal_allocation := decode zone_data best_state in
  ret (optimal_allocation, counts, circuit).

End Class.
Arguments t : clear implicits.
End QuantumIrrigationOptimizer.

(* ================================================================== *)
(** ** Numbers: Python and numpy arithmetic on idealised floats        *)
(* ================================================================== *)

(** [a > b] on floats. *)
Definition Qgtb (a b : Q) : bool := negb (Qle_bool a b).

(** Python's true division [a / b]. *)
Definition py_truediv (a b : Q) : result Q :=
  if Qeq_bool b 0 then Raise (ZeroDivisionError "division by zero")
  else Ok (a / b).

Definition Q_of_nat (n : nat) : Q := inject_Z (Z.of_nat n).

(** [str(n)] for a natural number. *)
Definition str (n : nat) : string := NilZero.string_of_uint (Nat.to_uint n).

(** [enumerate(xs)] *)
Definition enumerate {A} (xs : list A) : list (nat * A) :=
  combine (seq 0 (List.length xs)) xs.

(** [s.count('1')] *)
Definition count_char (c : ascii) (s : string) : nat :=
  List.length (filter (Ascii.eqb c) (list_ascii_of_string s)).

(** Elementwise [a / b] of two one-dimensional numpy arrays with numpy's
    broadcasting rule; the divisors used here are non-zero constants. *)
Definition np_divide (a b : list Q) : result (list Q) :=
  if (List.length a =? List.length b)%nat
  then Ok (map (fun xy : Q * Q => fst xy / snd xy) (combine a b))
  else match a, b with
       | [x], _ => Ok (map (fun y => x / y) b)
       | _, [y] => Ok (map (fun x => x / y) a)
       | _, _ => Raise (ValueError "operands could not be broadcast together")
       end.

(* ================================================================== *)
(** ** quantum/algorithms/pest_forecaster.py                           *)
(* ================================================================== *)

Module QuantumPestForecaster.
Section Class.
Context {W : Type}.

Record t : Type := mk {
  n_qubits : nat;
  shots : nat;
  simulator : Backend W
}.

Definition __init__ (settings : list (string * nat)) (aer : Backend W) : t :=
  {| n_qubits := 3;
     shots := dict_get settings "shots" 1024%nat;
     simulator := aer |}.

Definition _create_feature_map_circuit (self : t) (features : list Q)
  : result QuantumCircuit :=
  let circuit := new_circuit (n_qubits self) in
  circuit <~ for_each (enumerate features) circuit
               (fun qc (ifeat : nat * Q) =>
                  let (i, feature) := ifeat in
                  qc <~ append (ry (pi_times feature) i) qc ;;
                  append (rz (pi_times (feature * 0.5)) i) qc) ;;
  circuit <~ (if (1 <? n_qubits self)%nat
              then circuit <~ append barrier circuit ;;
                   for_each (seq 0 (n_qubits self - 1)) circuit
                     (fun qc i => append (cx i (i + 1)) qc)
              else Ok circuit) ;;
  append measure_all circuit.

(** A value a caller may hand over as [crop_stage]: [forecast] passes a
    number, the signature of [_generate_recommendations] expects a string. *)
Inductive pyvalue : Type :=
| PyFloat (x : Q)
| PyStr (s : string).

Definition high_tier : list string :=
  [ "**Action Required**: Immediate field inspection recommended.";
    "Deploy pheromone traps in high-risk zones.";
    "Consider targeted organic pesticide application." ]%string.

Definition medium_tier : list string :=
  [ "**Warning**: Increase monitoring frequency to daily.";
    "Focus on vulnerable crop sections (young leaves).";
    "Prepare mitigation resources." ]%string.

Definition low_tier : list string :=
  [ "**All Clear**: Conditions are favorable. Continue standard monitoring.";
    "Maintain beneficial insect habitats to support natural pest control." ]%string.

Definition stage_recs : list (string * string) :=
  [ ("Germination", "Protect seedlings with row covers if high risk is detected.");
    ("Flowering", "Be cautious with any treatments to protect vital pollinators.");
    ("Maturation", "Ensure proper storage plans to prevent post-harvest infestation.") ]%string.

(** [stage_recs[k]] guarded by [k in stage_recs]: a number is never equal to
    one of the string keys. *)
Definition stage_lookup (crop_stage : pyvalue) : option string :=
  match crop_stage with
  | PyFloat _ => None
  | PyStr s =>
      option_map snd (find (fun kv => String.eqb (fst kv) s) stage_recs)
  end.

Definition _generate_recommendations (risk_score : Q) (crop_stage : pyvalue)
  : list string :=
  let recommendations := [] in
  let recommendations :=
    if Qgtb risk_score 0.7 then recommendations ++ high_tier
    else if Qgtb risk_score 0.4 then recommendations ++ medium_tier
    else recommendations ++ low_tier in
  match stage_lookup crop_stage with
  | Some rec => recommendations ++ [rec]
  | None => recommendations
  end.

(** The three labels; the source prefixes each with a coloured-circle
    emoji. *)
Inductive risk_level : Type := HighRisk | MediumRisk | LowRisk.

Definition label (l : risk_level) : string :=
  match l with
  | HighRisk => "High Risk"
  | MediumRisk => "Medium Risk"
  | LowRisk => "Low Risk"
  end%string.

Definition classify (risk_score : Q) : risk_level :=
  if Qgtb risk_score 0.65 then HighRisk
  else if Qgtb risk_score 0.35 then MediumRisk
  else LowRisk.

(** The aggregation loop of [forecast]. *)
Definition risk_value_of (self : t) (counts : Counts) : result Q :=
  for_each counts 0
    (fun risk_value (item : string * nat) =>
       let (state, num_shots) := item in
       let num_ones := count_char "1" state in
       density <~ py_truediv (Q_of_nat num_ones) (Q_of_nat (n_qubits self)) ;;
       Ok (risk_value + density * Q_of_nat num_shots)).

Definition risk_score_of (self : t) (counts : Counts) : result Q :=
  let total_shots := py_sum (values counts) in
  risk_value <~ risk_value_of self counts ;;
  py_truediv risk_value (Q_of_nat total_shots).

(** [features[-1]] *)
Definition last_item (features : list Q) : result Q :=
  match rev features with
  | x :: _ => Ok x
  | [] => Raise (IndexError "index -1 is out of bounds for axis 0 with size 0")
  end.

Definition forecast (self : t) (features : list Q)
  : M W (Q * risk_level * list string * QuantumCircuit * Counts) :=
  if negb (List.length features =? n_qubits self)%nat
  then raise (ValueError ("Expected " ++ str (n_qubits self)
                          ++ " features, but got "
                          ++ str (List.length features))%string)
  else
    normalized_features <- lift (np_divide features [45; 100; 100]) ;;
    circuit <- lift (_create_feature_map_circuit self normalized_features) ;;
    t_circuit <- lift (transpile (simulator self) circuit) ;;
    counts <- run (simulator self) t_circuit (shots self) None ;;
    risk_score <- lift (risk_score_of self counts) ;;
    let risk_level := classify risk_score in
    crop_stage <- lift (last_item features) ;;
    let recommendations := _generate_recommendations risk_score (PyFloat crop_stage) in
    ret (risk_score, risk_level, recommendations, circuit, counts).

End Class.
Arguments t : clear implicits.
End QuantumPestForecaster.

(* ================================================================== *)
(** ** numpy floats, reductions and [int(s, 2)]                        *)
(* ================================================================== *)

(** A numpy float: finite, or one of the values a division by zero yields
    (numpy warns and goes on where Python raises). *)
Inductive npfloat : Type :=
| finite (x : Q)
| pos_inf
| neg_inf
| nan.

(** [a / b] on numpy floats with finite operands. *)
Definition np_true_divide (a b : Q) : npfloat :=
  if Qeq_bool b 0 then
    if Qeq_bool a 0 then nan
    else if Qle_bool 0 a then pos_inf else neg_inf
  else finite (a / b).

Definition np_sub (a b : npfloat) : npfloat :=
  match a, b with
  | finite x, finite y => finite (x - y)
  | nan, _ | _, nan => nan
  | pos_inf, pos_inf | neg_inf, neg_inf => nan
  | pos_inf, _ | _, neg_inf => pos_inf
  | neg_inf, _ | _, pos_inf => neg_inf
  end.

Definition np_add (a b : npfloat) : npfloat :=
  match a, b with
  | finite x, finite y => finite (x + y)
  | nan, _ | _, nan => nan
  | pos_inf, neg_inf | neg_inf, pos_inf => nan
  | pos_inf, _ | _, pos_inf => pos_inf
  | neg_inf, _ | _, neg_inf => neg_inf
  end.

(** [a ** 2] *)
Definition np_square (a : npfloat) : npfloat :=
  match a with
  | finite x => finite (x * x)
  | nan => nan
  | pos_inf | neg_inf => pos_inf
  end.

(** [a / n] for a positive integer [n]. *)
Definition np_div_nat (a : npfloat) (n : nat) : npfloat :=
  match a with
  | finite x => finite (x / Q_of_nat n)
  | other => other
  end.

(** [np.min(y)] and [np.max(y)]; numpy raises on an empty array. *)
Definition np_min (y : list Q) : result Q :=
  match y with
  | [] => Raise (ValueError "zero-size array to reduction operation minimum which has no identity")
  | v :: y' => Ok (fold_left Qmin y' v)
  end.

Definition np_max (y : list Q) : result Q :=
  match y with
  | [] => Raise (ValueError "zero-size array to reduction operation maximum which has no identity")
  | v :: y' => Ok (fold_left Qmax y' v)
  end.

(** [int(bitstring, 2)] on the keys of a counts dict: a non-empty string of
    binary digits.  Any other character raises [ValueError] (Python would
    also accept a sign, surrounding blanks, underscores and a [0b] prefix,
    none of which occurs in an outcome key). *)
Fixpoint int_base2_from (acc : Z) (cs : list ascii) : result Z :=
  match cs with
  | [] => Ok acc
  | c :: cs' =>
      if Ascii.eqb c "0" then int_base2_from (2 * acc) cs'
      else if Ascii.eqb c "1" then int_base2_from (2 * acc + 1) cs'
      else Raise (ValueError "invalid literal for int() with base 2")
  end.

Definition int_base2 (s : string) : result Z :=
  match list_ascii_of_string s with
  | [] => Raise (ValueError "invalid literal for int() with base 2")
  | cs => int_base2_from 0 cs
  end.

(** Elementwise [a - b] of two one-dimensional arrays, with numpy's
    broadcasting rule. *)
Definition np_subtract (a b : list Q) : result (list Q) :=
  if (List.length a =? List.length b)%nat
  then Ok (map (fun xy : Q * Q => fst xy - snd xy) (combine a b))
  else match a, b with
       | [x], _ => Ok (map (fun y => x - y) b)
       | _, [y] => Ok (map (fun x => x - y) a)
       | _, _ => Raise (ValueError "operands could not be broadcast together")
       end.

(** [np.sum(a ** 2)] on finite values. *)
Definition np_sum_squares (a : list Q) : Q :=
  fold_left Qplus (map (fun v => v * v) a) 0.

(** [np.sum] and [np.mean]; the mean of an empty array is [nan]. *)
Definition np_sum (a : list npfloat) : npfloat := fold_left np_add a (finite 0).

Definition np_mean (y : list Q) : npfloat :=
  match y with
  | [] => nan
  | _ => finite (fold_left Qplus y 0 / Q_of_nat (List.length y))
  end.

(** A [for] loop whose body has effects. *)
Fixpoint for_each_M {S A B} (xs : list A) (acc : B) (body : B -> A -> M S B)
  : M S B :=
  match xs with
  | [] => ret acc
  | x :: xs' => acc' <- body acc x ;; for_each_M xs' acc' body
  end.

(** Methods that assign to attributes of [self] run on the pair of the
    object and the world. *)
Definition get_self {O W} : M (O * W) O := fun s => (Ok (fst s), s).

Definition set_self {O W} (f : O -> O) : M (O * W) unit :=
  fun s => (Ok tt, (f (fst s), snd s)).

Definition in_world {O W A} (c : M W A) : M (O * W) A :=
  fun s => let (r, w') := c (snd s) in (r, (fst s, w')).

(* ================================================================== *)
(** ** quantum/algorithms/yield_predictor.py                           *)
(* ================================================================== *)

Module CustomQuantumYieldPredictor.
Section Class.
Context {W : Type}.

(** A [TwoLocal] instance: its parameter count and [assign_parameters],
    which returns the bound instructions or raises on a wrong count. *)
Record Ansatz : Type := mkAnsatz {
  ansatz_num_parameters : nat;
  assign_parameters : list Q -> result (list instruction)
}.

(** [scipy.optimize.OptimizeResult] *)
Record OptimizeResult : Type := mkOptimizeResult {
  x : list Q;
  fun_ : npfloat
}.

(** What the module imports from numpy, scikit-learn, Qiskit and scipy. *)
Record Imports : Type := mkImports {
  Scaler : Type;
  StandardScaler : Scaler;
  fit_transform : Scaler -> list (list Q) -> result (Scaler * list (list Q));
  transform : Scaler -> list (list Q) -> result (list (list Q));
  TwoLocal : nat -> Ansatz;
  Aer_get_backend : Backend W;
  np_random_uniform : nat -> M W (list Q);
  minimize : (list Q -> M W npfloat) -> list Q -> nat -> M W OptimizeResult
}.

Variable lib : Imports.

Record t : Type := mk {
  num_features : nat;
  num_qubits : nat;
  shots : nat;
  scaler : Scaler lib;
  parameters : option (list Q);
  backend : Backend W;
  ansatz : Ansatz;
  num_parameters : nat;
  y_min : option Q;
  y_max : option Q
}.

(** [num_qubits or max(4, num_features)]: [None] and [0] are both falsy. *)
Definition __init__ (num_features : nat) (num_qubits : option nat) (shots : nat)
  : t :=
  let n := match num_qubits with
           | Some (S k) => S k
           | Some O | None => Nat.max 4 num_features
           end in
  let ansatz := TwoLocal lib n in
  {| num_features := num_features;
     num_qubits := n;
     shots := shots;
     scaler := StandardScaler lib;
     parameters := None;
     backend := Aer_get_backend lib;
     ansatz := ansatz;
     num_parameters := ansatz_num_parameters ansatz;
     y_min := None;
     y_max := None |}.

Definition _create_feature_map (self : t) (x : list Q) : result QuantumCircuit :=
  let qc := new_circuit (num_qubits self) in
  for_each (seq 0 (Nat.min (List.length x) (num_qubits self))) qc
    (fun qc i => append (ry (pi_times (nth i x 0)) i) qc).

Definition _create_circuit (self : t) (x : list Q) (parameters : list Q)
  : result QuantumCircuit :=
  feature_map <~ _create_feature_map self x ;;
  ansatz_bound <~ assign_parameters (ansatz self) parameters ;;
  let qc := mkCircuit (qc_num_qubits feature_map)
                      (qc_data feature_map ++ ansatz_bound) in
  append measure_all qc.

(** The loop of [_execute_circuit] over [counts.items()]. *)
Definition expectation_of (self : t) (counts : Counts) : result Q :=
  let total_shots := py_sum (values counts) in
  for_each counts 0
    (fun expectation (item : string * nat) =>
       let (bitstring, count) := item in
       n <~ int_base2 bitstring ;;
       value <~ py_truediv (inject_Z n) (inject_Z (2 ^ Z.of_nat (num_qubits self) - 1)) ;;
       term <~ py_truediv (value * Q_of_nat count) (Q_of_nat total_shots) ;;
       Ok (expectation + term)).

Definition _execute_circuit (self : t) (circuit : QuantumCircuit) : M W Q :=
  try_except
    (transpiled <- lift (transpile (backend self) circuit) ;;
     counts <- run (backend self) transpiled (shots self) None ;;
     lift (expectation_of self counts))
    (fun e => ret 0.5).

Definition _cost_function (self : t) (parameters : list Q)
           (X : list (list Q)) (y : list npfloat) : M W npfloat :=
  total_cost <- for_each_M (combine X y) (finite 0)
                  (fun total_cost (sample : list Q * npfloat) =>
                     let (x_sample, y_target) := sample in
                     circuit <- lift (_create_circuit self x_sample parameters) ;;
                     prediction <- _execute_circuit self circuit ;;
                     let cost := np_square (np_sub (finite prediction) y_target) in
                     ret (np_add total_cost cost)) ;;
  match X with
  | [] => raise (ZeroDivisionError "float division by zero")
  | _ => ret (np_div_nat total_cost (List.length X))
  end.

Definition set_scaler (s : Scaler lib) (self : t) : t :=
  mk (num_features self) (num_qubits self) (shots self) s (parameters self)
     (backend self) (ansatz self) (num_parameters self) (y_min self) (y_max self).

Definition set_y_range (lo hi : Q) (self : t) : t :=
  mk (num_features self) (num_qubits self) (shots self) (scaler self)
     (parameters self) (backend self) (ansatz self) (num_parameters self)
     (Some lo) (Some hi).

Definition set_parameters (p : list Q) (self : t) : t :=
  mk (num_features self) (num_qubits self) (shots self) (scaler self)
     (Some p) (backend self) (ansatz self) (num_parameters self)
     (y_min self) (y_max self).

(** The iteration budget handed to the optimizer: [options={'maxiter': 50}]. *)
Definition maxiter : nat := 50.

Definition fit (X : list (list Q)) (y : list Q) : M (t * W) unit :=
  self <- get_self ;;
  fitted <- lift (fit_transform lib (scaler self) X) ;;
  let (scaler', X_scaled) := fitted : Scaler lib * list (list Q) in
  _ <- set_self (set_scaler scaler') ;;
  y_min <- lift (np_min y) ;;
  y_max <- lift (np_max y) ;;
  _ <- set_self (set_y_range y_min y_max) ;;
  let y_normalized := map (fun v => np_true_divide (v - y_min) (y_max - y_min)) y in
  self <- get_self ;;
  initial_params <- in_world (np_random_uniform lib (num_parameters self)) ;;
  result <- in_world (minimize lib
                        (fun p => _cost_function self p X_scaled y_normalized)
                        initial_params maxiter) ;;
  set_self (set_parameters (x result)).

(** [self.y_max] and [self.y_min] exist only once [fit] has assigned them. *)
Definition attr (name : string) (v : option Q) : result Q :=
  match v with
  | Some q => Ok q
  | None => Raise (AttributeError name)
  end.

(** The body of the loop of [predict]. *)
Definition predict_row (self : t) (params : list Q)
           (predictions : list Q) (x_sample : list Q) : M W (list Q) :=
  circuit <- lift (_create_circuit self x_sample params) ;;
  prediction <- _execute_circuit self circuit ;;
  hi <- lift (attr "y_max" (y_max self)) ;;
  lo <- lift (attr "y_min" (y_min self)) ;;
  let denormalized := prediction * (hi - lo) + lo in
  ret (predictions ++ [denormalized]).

Definition predict (self : t) (X : list (list Q)) : M W (list Q) :=
  match parameters self with
  | None => raise (ValueError "Model must be trained first!")
  | Some params =>
      X_scaled <- lift (transform lib (scaler self) X) ;;
      for_each_M X_scaled [] (predict_row self params)
  end.

Definition score (self : t) (X : list (list Q)) (y : list Q) : M W Q :=
  predictions <- predict self X ;;
  residuals <- lift (np_subtract y predictions) ;;
  let ss_res := np_sum_squares residuals in
  let ss_tot := np_sum (map (fun v => np_square (np_sub (finite v) (np_mean y))) y) in
  ret (match ss_tot with
       | finite t => if Qgtb t 0 then 1 - ss_res / t else 0
       | pos_inf => 1
       | neg_inf | nan => 0
       end).

End Class.
End CustomQuantumYieldPredictor.

(* ================================================================== *)
(** ** quantum/utils/quantum_backend.py                                *)
(* ================================================================== *)

Module quantum_backend.
Section Functions.
Context {W : Type}.

(** The dict returned by [get_quantum_backend]. *)
Record backend_config : Type := mkConfig {
  backend : Backend W;
  shots : nat;
  optimization_level : nat;
  seed_simulator : Z
}.

(** [get_quantum_backend(backend_type, shots)].  Which backend object the
    chain of imports ends on depends on the installed packages; [resolve]
    stands for that choice.  The returned dict is what matters here. *)
Definition get_quantum_backend (resolve : string -> Backend W)
           (backend_type : string) (shots : nat) : backend_config :=
  {| backend := resolve backend_type;
     shots := shots;
     optimization_level := 1;
     seed_simulator := 42 |}.

Definition run_circuit (circuit : QuantumCircuit) (cfg : backend_config)
  : M W Counts :=
  let backend := backend cfg in
  let shots := shots cfg in
  transpiled_circuit <- lift (transpile backend circuit) ;;
  run backend transpiled_circuit shots None.

End Functions.
Arguments backend_config : clear implicits.
End quantum_backend.

(* ================================================================== *)
(** ** frontend/components/irrigation.py: the numbers of the dashboard *)
(* ================================================================== *)

Module irrigation_dashboard.

(** The water requirement the dashboard derives from a zone's area and
    priority. *)
Definition zone_requirement (area : Q) (priority : string) : Q :=
  area * (if String.eqb priority "High" then 5000
          else if String.eqb priority "Medium" then 3500
          else 2500).





End irrigation_dashboard.

(* ================================================================== *)
(** ** Vocabulary of the specification                                 *)
(* ================================================================== *)

(** [best] is the most frequent outcome of [counts], the first one in
    iteration order among those of maximal count. *)
Definition first_maximum (counts : Counts) (best : string) : Prop :=
  exists before after,
    keys counts = before ++ best :: after /\
    (forall k, In k before -> (counts_get counts k < counts_get counts best)%nat) /\
    (forall k, In k after -> (counts_get counts k <= counts_get counts best)%nat).


(** Every key of the distribution is a string of [n] binary digits. *)
Definition binary_digit (c : ascii) : bool := Ascii.eqb c "0" || Ascii.eqb c "1".

Definition bitstring (n : nat) (s : string) : Prop :=
  String.length s = n /\ forallb binary_digit (list_ascii_of_string s) = true.

Definition well_formed (n : nat) (counts : Counts) : Prop :=
  Forall (bitstring n) (keys counts).

(** Shot-weighted average of a per-outcome quantity [f]. *)
Definition weighted_sum (f : string -> Q) (counts : Counts) : Q :=
  fold_right (fun kv acc => f (fst kv) * Q_of_nat (snd kv) + acc) 0 counts.

Definition weighted_average (f : string -> Q) (counts : Counts) : Q :=
  weighted_sum f counts / Q_of_nat (py_sum (values counts)).


(** The unsigned integer a string of binary digits denotes, most
    significant bit first: the sum of the weights of its ['1'] positions. *)
Fixpoint bits_value (cs : list ascii) : Z :=
  match cs with
  | [] => 0
  | c :: cs' =>
      (if Ascii.eqb c "1" then 2 ^ Z.of_nat (List.length cs') else 0)
      + bits_value cs'
  end.

Definition unsigned_value (s : string) : Z := bits_value (list_ascii_of_string s).

(** An outcome's integer value normalised by [2^n - 1]. *)
Definition normalised_value (n : nat) (s : string) : Q :=
  inject_Z (unsigned_value s) / inject_Z (2 ^ Z.of_nat n - 1).

(** The score-tier rule set of the classifier's recommendations. *)
Definition tier_rules (risk_score : Q) : list string :=
  if Qgtb risk_score 0.7 then QuantumPestForecaster.high_tier
  else if Qgtb risk_score 0.4 then QuantumPestForecaster.medium_tier
  else QuantumPestForecaster.low_tier.






Definition encoding_gates (features : list Q) : list instruction :=
  flat_map (fun ifeat : nat * Q =>
              [ry (pi_times (snd ifeat)) (fst ifeat);
               rz (pi_times (snd ifeat * 0.5)) (fst ifeat)])
           (enumerate features).

Definition entangling_gates (n : nat) : list instruction :=
  if (1 <? n)%nat
  then barrier :: map (fun i => cx i (i + 1)) (seq 0 (n - 1))
  else [].

Definition rotation_gates (n : nat) (x : list Q) : list instruction :=
  map (fun i => ry (pi_times (nth i x 0)) i) (seq 0 (Nat.min (List.length x) n)).

(** Number of ['1'] characters of a key. *)
Definition ones (k : string) : nat := count_char "1" k.

(** Two states of a regressor agree on the attributes set by the
    constructor alone. *)
Definition same_hyperparameters {W} {lib : @CustomQuantumYieldPredictor.Imports W}
           (a b : CustomQuantumYieldPredictor.t lib) : Prop :=
  CustomQuantumYieldPredictor.num_features a = CustomQuantumYieldPredictor.num_features b /\
  CustomQuantumYieldPredictor.num_qubits a = CustomQuantumYieldPredictor.num_qubits b /\
  CustomQuantumYieldPredictor.shots a = CustomQuantumYieldPredictor.shots b /\
  CustomQuantumYieldPredictor.backend a = CustomQuantumYieldPredictor.backend b /\
  CustomQuantumYieldPredictor.ansatz a = CustomQuantumYieldPredictor.ansatz b /\
  CustomQuantumYieldPredictor.num_parameters a
  = CustomQuantumYieldPredictor.num_parameters b.

(* ================================================================== *)
(** ** Test doubles: simulators with a scripted behaviour              *)
(* ================================================================== *)

(** A simulator that accepts every circuit and always reports [counts]. *)
Definition scripted_backend {W} (counts : Counts) : Backend W :=
  {| transpile := fun c => Ok c;
     run := fun _ _ _ w => (Ok counts, w) |}.

(** A simulator whose [run] always raises. *)
Definition broken_backend {W} : Backend W :=
  {| transpile := fun c => Ok c;
     run := fun _ _ _ w => (Raise (LibraryError "simulation failed"), w) |}.

(** A simulator that writes each call of [run] into a call log. *)
Definition recording_backend (counts : Counts) : Backend (list string) :=
  {| transpile := fun c => Ok c;
     run := fun _ _ _ log => (Ok counts, log ++ ["backend.run"%string]) |}.

(** A sampler with a generator of its own: with a seed the outcome is a
    function of the seed; without one it is drawn from the generator state,
    which then advances. *)
Definition sample_from (n shots : nat) (r : nat) : Counts :=
  [(string_of_list_ascii (repeat "0"%char n), r mod (shots + 1));
   (string_of_list_ascii (repeat "1"%char n), shots - r mod (shots + 1))]%nat.

Definition seedable_backend : Backend nat :=
  {| transpile := fun c => Ok c;
     run := fun c shots seed state =>
              match seed with
              | Some s => (Ok (sample_from (qc_num_qubits c) shots (Z.to_nat s)), state)
              | None => (Ok (sample_from (qc_num_qubits c) shots state), S state)
              end |}.

(** A stand-in for [TwoLocal(n, ['ry', 'rz'], 'cz', reps=2)]: [6 * n]
    parameters, bound to one rotation each. *)
Definition toy_ansatz (n : nat) : CustomQuantumYieldPredictor.Ansatz :=
  {| CustomQuantumYieldPredictor.ansatz_num_parameters := 6 * n;
     CustomQuantumYieldPredictor.assign_parameters :=
       fun p =>
         if (List.length p =? 6 * n)%nat
         then Ok (map (fun ip : nat * Q => ry (radians (snd ip)) (fst ip mod n))
                      (enumerate p))
         else Raise (ValueError "Mismatching number of values and parameters") |}.

(** Library doubles that log their calls: an identity scaler, a generator
    that returns zeros, and an optimizer that evaluates the cost once at the
    starting point and returns it. *)
Definition recording_imports (b : Backend (list string))
  : @CustomQuantumYieldPredictor.Imports (list string) :=
  {| CustomQuantumYieldPredictor.Scaler := unit;
     CustomQuantumYieldPredictor.StandardScaler := tt;
     CustomQuantumYieldPredictor.fit_transform := fun _ X => Ok (tt, X);
     CustomQuantumYieldPredictor.transform := fun _ X => Ok X;
     CustomQuantumYieldPredictor.TwoLocal := toy_ansatz;
     CustomQuantumYieldPredictor.Aer_get_backend := b;
     CustomQuantumYieldPredictor.np_random_uniform :=
       fun k log => (Ok (repeat 0 k), log ++ ["np.random.uniform"%string]);
     CustomQuantumYieldPredictor.minimize :=
       fun cost x0 maxiter log =>
         match cost x0 (log ++ [("minimize(maxiter=" ++ str maxiter ++ ")")%string]) with
         | (Ok v, log') =>
             (Ok (CustomQuantumYieldPredictor.mkOptimizeResult x0 v), log')
         | (Raise e, log') => (Raise e, log')
         end |}.

(** Library doubles over a generator state: numpy's global generator and
    the sampler both draw from it and advance it. *)
Definition entropy_imports : @CustomQuantumYieldPredictor.Imports nat :=
  {| CustomQuantumYieldPredictor.Scaler := unit;
     CustomQuantumYieldPredictor.StandardScaler := tt;
     CustomQuantumYieldPredictor.fit_transform := fun _ X => Ok (tt, X);
     CustomQuantumYieldPredictor.transform := fun _ X => Ok X;
     CustomQuantumYieldPredictor.TwoLocal := toy_ansatz;
     CustomQuantumYieldPredictor.Aer_get_backend := seedable_backend;
     CustomQuantumYieldPredictor.np_random_uniform :=
       fun k state => (Ok (repeat (Q_of_nat state) k), S state);
     CustomQuantumYieldPredictor.minimize :=
       fun cost x0 maxiter state =>
         match cost x0 state with
         | (Ok v, state') =>
             (Ok (CustomQuantumYieldPredictor.mkOptimizeResult x0 v), state')
         | (Raise e, state') => (Raise e, state')
         end |}.

(** The script [model.fit(X, y); model.predict(X')] on a fresh model. *)
Definition fit_then_predict {W} (lib : @CustomQuantumYieldPredictor.Imports W)
           (X : list (list Q)) (y : list Q) (X' : list (list Q)) : M W (list Q) :=
  fun w =>
    match CustomQuantumYieldPredictor.fit X y
            (CustomQuantumYieldPredictor.__init__ lib 1 None 8, w) with
    | (Ok _, (model, w1)) => CustomQuantumYieldPredictor.predict model X' w1
    | (Raise e, (_, w1)) => (Raise e, w1)
    end.

(** The regressor of the examples: one feature, hence four qubits and 24
    ansatz parameters, eight shots. *)
Definition sample_predictor (b : Backend (list string))
  : CustomQuantumYieldPredictor.t (recording_imports b) :=
  CustomQuantumYieldPredictor.__init__ (recording_imports b) 1 None 8.

(** A distribution on four bits, and training sets. *)
Definition four_bit_counts : Counts :=
  [("0000", 1); ("0101", 3); ("1111", 4)]%string%nat.

Definition constant_X : list (list Q) := [[1]; [2]].
Definition varied_y : list Q := [3; 7].
Definition query_X : list (list Q) := [[0]; [4]; [9]].

(** Sample configuration of the repository's test: four qubits, depth one,
    128 shots; here with a scripted simulator. *)
Definition test_settings : list (string * nat) :=
  [("n_qubits", 4); ("circuit_depth", 1); ("shots", 128)]%string%nat.

Definition four_zones : list QuantumIrrigationOptimizer.Zone :=
  repeat (QuantumIrrigationOptimizer.mkZone 1000) 4.

Definition tied_counts : Counts :=
  [("0110", 40); ("1010", 44); ("1001", 44)]%string%nat.

(** An allocator configured for five qubits, handed two zones. *)
Definition five_qubit_settings : list (string * nat) :=
  [("n_qubits", 5); ("circuit_depth", 1); ("shots", 128)]%string%nat.

Definition two_zones : list QuantumIrrigationOptimizer.Zone :=
  repeat (QuantumIrrigationOptimizer.mkZone 1000) 2.

Definition two_bit_counts : Counts := [("10", 70); ("01", 58)]%string%nat.

(** The default reading of the dashboard's sliders: temperature, humidity
    and rainfall. *)
Definition slider_features : list Q := [28; 75; 20].

(** Twenty shots whose bit density is exactly 0.65. *)
Definition boundary_counts : Counts := [("111", 13); ("000", 7)]%string%nat.

Definition sample_counts : Counts :=
  [("000", 100); ("011", 400); ("101", 300); ("111", 224)]%string%nat.

(** A distribution, and the same shots moved to keys with more ['1']
    bits. *)
Definition sparse_counts : Counts :=
  [("000", 600); ("001", 300); ("011", 124)]%string%nat.

Definition dense_counts : Counts :=
  [("001", 600); ("011", 300); ("111", 124)]%string%nat.

Definition two_features : list Q := [28; 75].


(* ================================================================== *)
(** * Properties                                                       *)
(* ================================================================== *)

(** ** Generic facts about the runtime *)

Lemma max_from_first_maximum {A} (key : A -> nat) (xs : list A) :
  forall best before between,
    (forall a, In a before -> (key a < key best)%nat) ->
    (forall a, In a between -> (key a <= key best)%nat) ->
    exists before' after',
      before ++ best :: between ++ xs
        = before' ++ max_from key best xs :: after' /\
      (forall a, In a before' -> (key a < key (max_from key best xs))%nat) /\
      (forall a, In a after' -> (key a <= key (max_from key best xs))%nat).
Proof.
  induction xs as [|a xs IH]; intros best before between Hlt Hle; simpl.
  - exists before, between. rewrite app_nil_r. auto.
  - destruct (Nat.ltb_spec (key best) (key a)) as [Hlt'|Hge].
    + destruct (IH a (before ++ best :: between) []) as (b' & a' & E & H1 & H2).
      * intros c Hc. apply in_app_or in Hc as [Hc|[<-|Hc]]; auto.
        -- specialize (Hlt _ Hc). lia.
        -- specialize (Hle _ Hc). lia.
      * intros c [].
      * exists b', a'. split; [|auto].
        rewrite <- E. simpl. rewrite <- app_assoc. reflexivity.
    + destruct (IH best before (between ++ [a])) as (b' & a' & E & H1 & H2).
      * assumption.
      * intros c Hc. apply in_app_or in Hc as [Hc|[<-|[]]]; auto.
      * exists b', a'. split; [|auto].
        rewrite <- E. rewrite <- app_assoc. reflexivity.
Qed.

Lemma py_max_first_maximum (counts : Counts) :
  counts <> [] ->
  exists best,
    py_max (counts_get counts) (keys counts) = Ok best /\
    first_maximum counts best.
Proof.
  intros Hne. unfold first_maximum.
  destruct counts as [|[k v] rest]; [congruence|].
  cbn [keys map fst py_max].
  eexists. split; [reflexivity|].
  destruct (max_from_first_maximum (counts_get ((k, v) :: rest))
              (map fst rest) k [] [])
    as (b' & a' & E & H1 & H2).
  - intros a [].
  - intros a [].
  - exists b', a'. simpl in E. rewrite E. auto.
Qed.

Lemma append_in_range (i : instruction) (qc : QuantumCircuit) :
  forallb (fun q => q <? qc_num_qubits qc)%nat (qargs i) = true ->
  append i qc = Ok (mkCircuit (qc_num_qubits qc) (qc_data qc ++ [i])).
Proof. intros Hr. unfold append. rewrite Hr. reflexivity. Qed.

(** A loop of gate calls whose indexes are all in range succeeds and keeps
    the width of the circuit. *)
Lemma for_each_append_ok {A} (g : A -> instruction) (xs : list A) :
  forall qc,
    (forall a, In a xs ->
               forallb (fun q => q <? qc_num_qubits qc)%nat (qargs (g a)) = true) ->
    exists data,
      for_each xs qc (fun qc a => append (g a) qc)
        = Ok (mkCircuit (qc_num_qubits qc) data).
Proof.
  induction xs as [|a xs IH]; intros qc Hr; simpl.
  - destruct qc. eexists. reflexivity.
  - rewrite append_in_range by (apply Hr; left; reflexivity). simpl.
    destruct (IH (mkCircuit (qc_num_qubits qc) (qc_data qc ++ [g a])))
      as (data & E).
    + intros b Hb. simpl. apply Hr. right. exact Hb.
    + exists data. exact E.
Qed.

(* ------------------------------------------------------------------ *)
(** ** The allocator                                                   *)
(* ------------------------------------------------------------------ *)

Section Allocator.
Import QuantumIrrigationOptimizer.
Context {W : Type}.

Lemma qaoa_layer_ok (n : nat) (data : list instruction) :
  exists data', qaoa_layer n (mkCircuit n data) = Ok (mkCircuit n data').
Proof.
  unfold qaoa_layer.
  destruct (for_each_append_ok (fun i => rzz (pi_times (1 # 2)) i (i + 1))
              (seq 0 (n - 1)) (mkCircuit n data)) as (d1 & E1).
  { intros i Hi. apply in_seq in Hi. simpl.
    rewrite andb_true_r, andb_true_iff, !Nat.ltb_lt. lia. }
  rewrite E1. simpl. unfold append at 1. simpl.
  unfold append_range.
  destruct (for_each_append_ok (rx (pi_times (1 # 3)))
              (seq 0 n) (mkCircuit n (d1 ++ [barrier]))) as (d2 & E2).
  { intros i Hi. apply in_seq in Hi. simpl.
    rewrite andb_true_r, Nat.ltb_lt. lia. }
  simpl in E2. rewrite E2. simpl. unfold append. simpl.
  eexists. reflexivity.
Qed.

Lemma qaoa_layers_ok (n : nat) {A} (reps : list A) :
  forall data,
  exists data',
    for_each reps (mkCircuit n data) (fun qc _ => qaoa_layer n qc)
      = Ok (mkCircuit n data').
Proof.
  induction reps as [|r reps IH]; intros data; simpl.
  - eexists. reflexivity.
  - destruct (qaoa_layer_ok n data) as (d1 & E1). rewrite E1. simpl.
    apply IH.
Qed.

(** The circuit is built for whatever width is asked, and has that width. *)
Lemma _create_qaoa_circuit_ok (self : t W) (n : nat) :
  exists data, _create_qaoa_circuit self n = Ok (mkCircuit n data).
Proof.
  unfold _create_qaoa_circuit, append_range.
  destruct (for_each_append_ok h (seq 0 n) (new_circuit n)) as (d1 & E1).
  { intros i Hi. apply in_seq in Hi. simpl.
    rewrite andb_true_r, Nat.ltb_lt. lia. }
  simpl in E1. rewrite E1. simpl. unfold append at 1. simpl.
  destruct (qaoa_layers_ok n (seq 0 (depth self)) (d1 ++ [barrier]))
    as (d2 & E2).
  rewrite E2. simpl. unfold append. simpl.
  eexists. reflexivity.
Qed.


Lemma length_list_ascii (s : string) :
  List.length (list_ascii_of_string s) = String.length s.
Proof. induction s; simpl; auto. Qed.



(** The steps of [optimize] once the simulator has answered. *)
Lemma optimize_run (self : t W) (zone_data : list Zone)
      (c tc : QuantumCircuit) (counts : Counts) (best : string) (w w' : W) :
  _create_qaoa_circuit self (List.length zone_data) = Ok c ->
  transpile (simulator self) c = Ok tc ->
  run (simulator self) tc (shots self) None w = (Ok counts, w') ->
  py_max (counts_get counts) (keys counts) = Ok best ->
  optimize self zone_data w = (Ok (decode zone_data best, counts, c), w').
Proof.
  intros Hc Ht Hr Hm. unfold optimize, bind, lift, ret.
  rewrite Hc, Ht, Hr, Hm. reflexivity.
Qed.

End Allocator.





(** On a tie the earlier key wins: ["1010"] and ["1001"] both have 44 shots. *)
Example optimize_tie_goes_to_first :
  exists c,
    QuantumIrrigationOptimizer.optimize
      (QuantumIrrigationOptimizer.__init__ test_settings
         (scripted_backend tied_counts)) four_zones tt
    = (Ok ([1000 * 0.8; 0; 1000 * 0.8; 0], tied_counts, c), tt).
Proof. eexists. vm_compute. reflexivity. Qed.

(** C3, as stated, fails: with five configured qubits and two zones
    [optimize] raises nothing; it returns an allocation for a two-qubit
    circuit. *)
Lemma optimize_accepts_length_mismatch :
  let self := QuantumIrrigationOptimizer.__init__ five_qubit_settings
                (scripted_backend two_bit_counts) in
  List.length two_zones <> QuantumIrrigationOptimizer.n_qubits self /\
  exists c,
    qc_num_qubits c = 2%nat /\
    QuantumIrrigationOptimizer.optimize self two_zones tt
      = (Ok ([1000 * 0.8; 0], two_bit_counts, c), tt).
Proof.
  split.
  - vm_compute. discriminate.
  - eexists. split; [|vm_compute; reflexivity]. reflexivity.
Qed.

(** C3, amended.  [optimize] never compares the zone count with the
    configured qubit count: whatever that count is, the circuit is built with
    one qubit per zone, and once the simulator has returned a non-empty
    distribution [optimize] returns an allocation rather than an error. *)
Theorem optimize_sizes_circuit_by_zone_count
        (W : Type) (self : QuantumIrrigationOptimizer.t W)
        (zone_data : list QuantumIrrigationOptimizer.Zone)
        (c tc : QuantumCircuit) (counts : Counts) (w w' : W) :
  QuantumIrrigationOptimizer._create_qaoa_circuit self (List.length zone_data) = Ok c ->
  transpile (QuantumIrrigationOptimizer.simulator self) c = Ok tc ->
  run (QuantumIrrigationOptimizer.simulator self) tc
      (QuantumIrrigationOptimizer.shots self) None w = (Ok counts, w') ->
  counts <> [] ->
  qc_num_qubits c = List.length zone_data /\
  exists allocation,
    QuantumIrrigationOptimizer.optimize self zone_data w
      = (Ok (allocation, counts, c), w').
Proof.
  intros Hc Ht Hr Hne. split.
  - destruct (_create_qaoa_circuit_ok self (List.length zone_data)) as (d & E).
    rewrite E in Hc. injection Hc as <-. reflexivity.
  - destruct (py_max_first_maximum Hne) as (best & Hmax & _).
    eexists. apply optimize_run with (tc := tc); eassumption.
Qed.

Lemma optimize_sizes_circuit_by_zone_count_witness :
  exists c,
    qc_num_qubits c = List.length two_zones /\
    exists allocation,
      QuantumIrrigationOptimizer.optimize
        (QuantumIrrigationOptimizer.__init__ five_qubit_settings
           (scripted_backend two_bit_counts)) two_zones tt
      = (Ok (allocation, two_bit_counts, c), tt).
Proof.
  eexists.
  eapply (@optimize_sizes_circuit_by_zone_count unit
            (QuantumIrrigationOptimizer.__init__ five_qubit_settings
               (scripted_backend two_bit_counts)) two_zones).
  - vm_compute. reflexivity.
  - reflexivity.
  - reflexivity.
  - discriminate.
Defined.

(* ------------------------------------------------------------------ *)
(** ** Arithmetic helpers                                              *)
(* ------------------------------------------------------------------ *)

Lemma Qgtb_lt (a b : Q) : Qgtb a b = true <-> b < a.
Proof.
  unfold Qgtb. rewrite negb_true_iff. split.
  - intros Hf. apply Qnot_le_lt. intros Hle.
    apply Qle_bool_iff in Hle. congruence.
  - intros Hlt. destruct (Qle_bool a b) eqn:E; [|reflexivity].
    apply Qle_bool_iff in E. apply Qlt_not_le in Hlt. contradiction.
Qed.

Lemma Qgtb_le (a b : Q) : Qgtb a b = false <-> a <= b.
Proof.
  unfold Qgtb. rewrite negb_false_iff. apply Qle_bool_iff.
Qed.

Lemma Q_of_nat_nonneg (n : nat) : 0 <= Q_of_nat n.
Proof. unfold Q_of_nat. change 0 with (inject_Z 0). rewrite <- Zle_Qle. lia. Qed.

Lemma Q_of_nat_le (n m : nat) : (n <= m)%nat -> Q_of_nat n <= Q_of_nat m.
Proof. intros H. unfold Q_of_nat. rewrite <- Zle_Qle. lia. Qed.

Lemma Q_of_nat_pos (n : nat) : (0 < n)%nat -> 0 < Q_of_nat n.
Proof. intros H. unfold Q_of_nat. change 0 with (inject_Z 0). rewrite <- Zlt_Qlt. lia. Qed.

Lemma Q_of_nat_add (n m : nat) : Q_of_nat (n + m) == Q_of_nat n + Q_of_nat m.
Proof. unfold Q_of_nat. rewrite Nat2Z.inj_add, inject_Z_plus. reflexivity. Qed.

Lemma Qeq_bool_pos (q : Q) : 0 < q -> Qeq_bool q 0 = false.
Proof.
  intros Hpos. destruct (Qeq_bool q 0) eqn:E; [|reflexivity].
  apply Qeq_bool_eq in E. rewrite E in Hpos. apply Qlt_irrefl in Hpos. contradiction.
Qed.

Lemma py_truediv_pos (a b : Q) : 0 < b -> py_truediv a b = Ok (a / b).
Proof. intros Hb. unfold py_truediv. rewrite Qeq_bool_pos by exact Hb. reflexivity. Qed.

Lemma fold_left_add_shift (xs : list nat) :
  forall a, fold_left Nat.add xs a = (a + fold_left Nat.add xs 0)%nat.
Proof.
  induction xs as [|x xs IH]; intros a; simpl.
  - lia.
  - rewrite IH, (IH x). lia.
Qed.

Lemma py_sum_cons (x : nat) (xs : list nat) : py_sum (x :: xs) = (x + py_sum xs)%nat.
Proof. unfold py_sum. simpl. apply fold_left_add_shift. Qed.

Lemma py_sum_values_cons (k : string) (v : nat) (counts : Counts) :
  py_sum (values ((k, v) :: counts)) = (v + py_sum (values counts))%nat.
Proof. unfold values. simpl. apply py_sum_cons. Qed.


(** A quantity within [0, 1] on every key sums to at most the shot total. *)
Lemma weighted_sum_bounds (f : string -> Q) (counts : Counts) :
  (forall k, In k (keys counts) -> 0 <= f k <= 1) ->
  0 <= weighted_sum f counts <= Q_of_nat (py_sum (values counts)).
Proof.
  induction counts as [|[k v] counts IH]; intros Hf.
  - simpl. split; [apply Qle_refl | apply Q_of_nat_nonneg].
  - rewrite py_sum_values_cons, Q_of_nat_add. simpl.
    destruct IH as [IH0 IH1].
    { intros k' Hk'. apply Hf. right. exact Hk'. }
    destruct (Hf k) as [Hf0 Hf1]; [left; reflexivity|].
    pose proof (Q_of_nat_nonneg v) as Hv.
    split; nra.
Qed.

Lemma weighted_average_bounds (f : string -> Q) (counts : Counts) :
  (0 < py_sum (values counts))%nat ->
  (forall k, In k (keys counts) -> 0 <= f k <= 1) ->
  0 <= weighted_average f counts <= 1.
Proof.
  intros Hpos Hf. unfold weighted_average.
  destruct (weighted_sum_bounds f counts Hf) as [H0 H1].
  apply Q_of_nat_pos in Hpos.
  split.
  - apply Qle_shift_div_l; [exact Hpos|]. lra.
  - apply Qle_shift_div_r; [exact Hpos|]. lra.
Qed.



(* ------------------------------------------------------------------ *)
(** ** The risk classifier                                             *)
(* ------------------------------------------------------------------ *)

(** Peel one stage off a hypothesis about a monadic pipeline. *)
Ltac pipeline_step H :=
  match type of H with
  | context [match ?scrutinee with _ => _ end] =>
      let E := fresh "Estep" in
      destruct scrutinee eqn:E; try discriminate H
  end.

Section Classifier.
Import QuantumPestForecaster.
Context {W : Type}.

Lemma risk_value_loop (self : t W) (counts : Counts) :
  (0 < n_qubits self)%nat ->
  forall acc,
  exists v,
    for_each counts acc
      (fun risk_value (item : string * nat) =>
         let (state, num_shots) := item in
         let num_ones := count_char "1" state in
         density <~ py_truediv (Q_of_nat num_ones) (Q_of_nat (n_qubits self)) ;;
         Ok (risk_value + density * Q_of_nat num_shots)) = Ok v /\
    v == acc + weighted_sum
                 (fun s => Q_of_nat (count_char "1" s) / Q_of_nat (n_qubits self))
                 counts.
Proof.
  intros Hn. apply Q_of_nat_pos in Hn.
  induction counts as [|[k c] counts IH]; intros acc; simpl.
  - exists acc. split; [reflexivity|]. lra.
  - rewrite py_truediv_pos by exact Hn. simpl.
    destruct (IH (acc + Q_of_nat (count_char "1" k) / Q_of_nat (n_qubits self)
                        * Q_of_nat c)) as (v & Ev & Hv).
    exists v. split; [exact Ev|]. rewrite Hv. lra.
Qed.


(** What a successful [forecast] has computed. *)
Lemma forecast_inv (self : t W) (features : list Q) (w w' : W)
      (score : Q) (level : risk_level) (recs : list string)
      (c : QuantumCircuit) (counts : Counts) :
  forecast self features w = (Ok (score, level, recs, c, counts), w') ->
  exists crop_stage,
    List.length features = n_qubits self /\
    risk_score_of self counts = Ok score /\
    level = classify score /\
    last_item features = Ok crop_stage /\
    recs = _generate_recommendations score (PyFloat crop_stage).
Proof.
  unfold forecast, bind, lift, raise, ret. intros H.
  destruct (List.length features =? n_qubits self)%nat eqn:Elen;
    simpl in H; [|discriminate H].
  apply Nat.eqb_eq in Elen.
  repeat pipeline_step H.
  injection H as <- <- <- <- <- <-.
  eexists. repeat split; try reflexivity; assumption.
Qed.


Lemma classify_thresholds (score : Q) :
  (classify score = HighRisk <-> 0.65 < score) /\
  (classify score = MediumRisk <-> 0.35 < score /\ score <= 0.65) /\
  (classify score = LowRisk <-> score <= 0.35).
Proof.
  unfold classify.
  destruct (Qgtb score 0.65) eqn:Ehigh; [|destruct (Qgtb score 0.35) eqn:Emed].
  - apply Qgtb_lt in Ehigh.
    repeat split; try discriminate; intros; try lra; auto.
  - apply Qgtb_le in Ehigh. apply Qgtb_lt in Emed.
    repeat split; try discriminate; intros; try lra; auto.
  - apply Qgtb_le in Ehigh. apply Qgtb_le in Emed.
    repeat split; try discriminate; intros; try lra; auto.
Qed.

(** A number handed over as crop stage selects no stage advice. *)
Lemma recommendations_for_number (score x : Q) :
  _generate_recommendations score (PyFloat x) = tier_rules score.
Proof.
  unfold _generate_recommendations, tier_rules. simpl.
  destruct (Qgtb score 0.7); [|destruct (Qgtb score 0.4)]; reflexivity.
Qed.

(** With a string, the rule set is the tier list plus at most one stage
    entry. *)
Lemma recommendations_for_stage (score : Q) (stage : string) :
  _generate_recommendations score (PyStr stage)
  = (tier_rules score
       ++ match stage_lookup (PyStr stage) with
          | Some advice => [advice]
          | None => []
          end)%list.
Proof.
  unfold _generate_recommendations, tier_rules.
  destruct (stage_lookup (PyStr stage));
    destruct (Qgtb score 0.7); try destruct (Qgtb score 0.4);
    simpl; rewrite ?app_nil_r; reflexivity.
Qed.

End Classifier.




(** C6.  The level [forecast] returns is read off the score by fixed
    thresholds: high exactly when the score is strictly above 0.65, medium
    exactly when it is strictly above 0.35 and not above 0.65, low otherwise.
    A score equal to 0.65 is therefore medium. *)
Theorem forecast_level_follows_thresholds
        (W : Type) (self : QuantumPestForecaster.t W) (features : list Q)
        (w w' : W) (score : Q) (level : QuantumPestForecaster.risk_level)
        (recs : list string) (c : QuantumCircuit) (counts : Counts) :
  QuantumPestForecaster.forecast self features w
    = (Ok (score, level, recs, c, counts), w') ->
  (level = QuantumPestForecaster.HighRisk <-> 0.65 < score) /\
  (level = QuantumPestForecaster.MediumRisk <-> 0.35 < score /\ score <= 0.65) /\
  (level = QuantumPestForecaster.LowRisk <-> score <= 0.35) /\
  (score == 0.65 -> level = QuantumPestForecaster.MediumRisk).
Proof.
  intros H. apply forecast_inv in H as (stage & _ & _ & -> & _).
  destruct (classify_thresholds score) as (Hh & Hm & Hl).
  split; [exact Hh|]. split; [exact Hm|]. split; [exact Hl|].
  intros E. apply Hm. rewrite E. split; [reflexivity | apply Qle_refl].
Qed.

Lemma forecast_level_follows_thresholds_witness :
  exists score level recs c,
    QuantumPestForecaster.forecast
      (QuantumPestForecaster.__init__ [] (scripted_backend boundary_counts))
      slider_features tt
      = (Ok (score, level, recs, c, boundary_counts), tt) /\
    score == 0.65 /\
    level = QuantumPestForecaster.MediumRisk /\
    ((level = QuantumPestForecaster.HighRisk <-> 0.65 < score) /\
     (level = QuantumPestForecaster.MediumRisk <-> 0.35 < score /\ score <= 0.65) /\
     (level = QuantumPestForecaster.LowRisk <-> score <= 0.35) /\
     (score == 0.65 -> level = QuantumPestForecaster.MediumRisk)).
Proof.
  do 4 eexists.
  split; [vm_compute; reflexivity|].
  split; [vm_compute; reflexivity|].
  split; [vm_compute; reflexivity|].
  eapply (@forecast_level_follows_thresholds unit
            (QuantumPestForecaster.__init__ [] (scripted_backend boundary_counts))
            slider_features tt tt).
  vm_compute. reflexivity.
Defined.

(** The rule the claim describes is what [_generate_recommendations] does
    when it is given the stage as a string. *)
Lemma recommendations_rule_on_strings (score : Q) :
  QuantumPestForecaster._generate_recommendations score
    (QuantumPestForecaster.PyStr "Germination")
  = (tier_rules score
     ++ ["Protect seedlings with row covers if high risk is detected."%string])%list /\
  QuantumPestForecaster._generate_recommendations score
    (QuantumPestForecaster.PyStr "Flowering")
  = (tier_rules score
     ++ ["Be cautious with any treatments to protect vital pollinators."%string])%list /\
  QuantumPestForecaster._generate_recommendations score
    (QuantumPestForecaster.PyStr "Maturation")
  = (tier_rules score
     ++ ["Ensure proper storage plans to prevent post-harvest infestation."%string])%list /\
  QuantumPestForecaster._generate_recommendations score
    (QuantumPestForecaster.PyStr "Vegetative")
  = tier_rules score.
Proof.
  rewrite !recommendations_for_stage. simpl.
  rewrite app_nil_r. repeat split; reflexivity.
Qed.

(** Whatever [forecast] returns, its recommendations are the tier rule set
    alone: the value it hands over as crop stage is the last feature, a
    number. *)
Lemma forecast_recommendations_are_tier_rules
      (W : Type) (self : QuantumPestForecaster.t W) (features : list Q)
      (w w' : W) (score : Q) (level : QuantumPestForecaster.risk_level)
      (recs : list string) (c : QuantumCircuit) (counts : Counts) :
  QuantumPestForecaster.forecast self features w
    = (Ok (score, level, recs, c, counts), w') ->
  recs = tier_rules score.
Proof.
  intros H. apply forecast_inv in H as (stage & _ & _ & _ & _ & ->).
  apply recommendations_for_number.
Qed.

(** C4.  With the dashboard's default readings and the stage "Flowering"
    selected there, [forecast] (which has no crop-stage argument) returns the
    tier rule set alone; the stage entry that [_generate_recommendations]
    would add for the string "Flowering" is missing from its answer. *)
Theorem forecast_omits_stage_advice :
  exists score level recs c,
    QuantumPestForecaster.forecast
      (QuantumPestForecaster.__init__ [] (scripted_backend sample_counts))
      slider_features tt
      = (Ok (score, level, recs, c, sample_counts), tt) /\
    recs = tier_rules score /\
    QuantumPestForecaster._generate_recommendations score
      (QuantumPestForecaster.PyStr "Flowering")
    = (recs ++ ["Be cautious with any treatments to protect vital pollinators."%string])%list /\
    ~ In "Be cautious with any treatments to protect vital pollinators."%string recs.
Proof.
  do 4 eexists.
  split; [vm_compute; reflexivity|].
  split; [vm_compute; reflexivity|].
  split; [vm_compute; reflexivity|].
  vm_compute. intros [H|[H|[H|[]]]]; discriminate H.
Qed.

(* ------------------------------------------------------------------ *)
(** ** The expectation estimator of the regressor                      *)
(* ------------------------------------------------------------------ *)

Lemma bits_value_bounds (cs : list ascii) :
  (0 <= bits_value cs < 2 ^ Z.of_nat (List.length cs))%Z.
Proof.
  induction cs as [|c cs IH]; simpl bits_value; simpl List.length.
  - simpl. lia.
  - rewrite Nat2Z.inj_succ, Z.pow_succ_r by lia.
    destruct (Ascii.eqb c "1"); lia.
Qed.

(** On binary digits Python's left-to-right accumulation computes the
    positional value. *)
Lemma int_base2_from_binary (cs : list ascii) :
  forallb binary_digit cs = true ->
  forall acc,
    int_base2_from acc cs
    = Ok (acc * 2 ^ Z.of_nat (List.length cs) + bits_value cs)%Z.
Proof.
  induction cs as [|c cs IH]; intros Hbin acc.
  - simpl. f_equal. lia.
  - cbn [int_base2_from bits_value List.length].
    rewrite Nat2Z.inj_succ, Z.pow_succ_r by lia.
    cbn [forallb] in Hbin. apply andb_true_iff in Hbin as [Hc Hcs].
    unfold binary_digit in Hc.
    destruct (Ascii.eqb c "0") eqn:E0.
    + apply Ascii.eqb_eq in E0. subst c.
      change (Ascii.eqb "0" "1") with false. cbv iota.
      rewrite IH by exact Hcs. f_equal. lia.
    + cbn [orb] in Hc. rewrite Hc.
      rewrite IH by exact Hcs. f_equal. lia.
Qed.

Lemma int_base2_bitstring (n : nat) (s : string) :
  (0 < n)%nat -> bitstring n s -> int_base2 s = Ok (unsigned_value s).
Proof.
  intros Hn [Hlen Hbin]. unfold int_base2, unsigned_value.
  rewrite <- length_list_ascii in Hlen.
  destruct (list_ascii_of_string s) as [|c cs] eqn:E.
  - simpl in Hlen. lia.
  - rewrite int_base2_from_binary by exact Hbin. f_equal.
Qed.

Lemma full_scale_pos (n : nat) :
  (0 < n)%nat -> 0 < inject_Z (2 ^ Z.of_nat n - 1).
Proof.
  intros Hn. change 0 with (inject_Z 0). rewrite <- Zlt_Qlt.
  assert (2 ^ 1 <= 2 ^ Z.of_nat n)%Z by (apply Z.pow_le_mono_r; lia).
  simpl in *. lia.
Qed.

Lemma normalised_value_bounds (n : nat) (s : string) :
  (0 < n)%nat -> String.length s = n -> 0 <= normalised_value n s <= 1.
Proof.
  intros Hn Hlen. unfold normalised_value, unsigned_value.
  pose proof (full_scale_pos Hn) as Hpos.
  pose proof (bits_value_bounds (list_ascii_of_string s)) as [H0 H1].
  rewrite length_list_ascii, Hlen in H1.
  split.
  - apply Qle_shift_div_l; [exact Hpos|].
    rewrite Qmult_0_l. change 0 with (inject_Z 0). rewrite <- Zle_Qle. exact H0.
  - apply Qle_shift_div_r; [exact Hpos|].
    rewrite Qmult_1_l. rewrite <- Zle_Qle. lia.
Qed.

Section Estimator.
Import CustomQuantumYieldPredictor.
Context {W : Type} (lib : @Imports W).

Lemma expectation_loop (self : t lib) (total : nat) (counts : Counts) :
  (0 < num_qubits self)%nat ->
  (0 < total)%nat ->
  well_formed (num_qubits self) counts ->
  forall acc,
  exists v,
    for_each counts acc
      (fun expectation (item : string * nat) =>
         let (bitstring, count) := item in
         n <~ int_base2 bitstring ;;
         value <~ py_truediv (inject_Z n)
                    (inject_Z (2 ^ Z.of_nat (num_qubits self) - 1)) ;;
         term <~ py_truediv (value * Q_of_nat count) (Q_of_nat total) ;;
         Ok (expectation + term)) = Ok v /\
    v == acc + weighted_sum (normalised_value (num_qubits self)) counts
               / Q_of_nat total.
Proof.
  intros Hn Htotal. pose proof (Q_of_nat_pos Htotal) as Hpos.
  induction counts as [|[k c] counts IH]; intros Hwf acc; simpl.
  - exists acc. split; [reflexivity|]. unfold Qdiv. lra.
  - apply Forall_cons_iff in Hwf as [Hk Hwf]. simpl in Hk.
    rewrite (int_base2_bitstring Hn Hk). simpl.
    rewrite py_truediv_pos by (apply full_scale_pos; exact Hn). simpl.
    rewrite py_truediv_pos by exact Hpos. simpl.
    destruct (IH Hwf (acc + inject_Z (unsigned_value k)
                              / inject_Z (2 ^ Z.of_nat (num_qubits self) - 1)
                              * Q_of_nat c / Q_of_nat total)) as (v & Ev & Hv).
    exists v. split; [exact Ev|]. rewrite Hv. unfold normalised_value.
    pose proof (full_scale_pos Hn) as Hscale.
    field. split; apply Qnot_eq_sym, Qlt_not_eq; assumption.
Qed.

(** The estimator on a well-formed distribution with a positive shot
    total. *)
Lemma expectation_of_average (self : t lib) (counts : Counts) :
  (0 < num_qubits self)%nat ->
  well_formed (num_qubits self) counts ->
  (0 < py_sum (values counts))%nat ->
  exists e,
    expectation_of self counts = Ok e /\
    e == weighted_average (normalised_value (num_qubits self)) counts /\
    0 <= e <= 1.
Proof.
  intros Hn Hwf Htotal. unfold expectation_of. cbv zeta.
  destruct (@expectation_loop self (py_sum (values counts)) counts
              Hn Htotal Hwf 0) as (v & Ev & Hv).
  exists v. split; [exact Ev|].
  assert (Havg : v == weighted_average (normalised_value (num_qubits self)) counts).
  { rewrite Hv. unfold weighted_average. lra. }
  split; [exact Havg|].
  rewrite Havg. apply weighted_average_bounds; [exact Htotal|].
  intros k Hk. apply normalised_value_bounds; [exact Hn|].
  unfold well_formed in Hwf. rewrite Forall_forall in Hwf.
  destruct (Hwf k Hk) as [Hlen _]. exact Hlen.
Qed.

(** [_execute_circuit] when the backend answers with [counts] on which the
    loop does not raise. *)
Lemma _execute_circuit_ok (self : t lib) (circuit tc : QuantumCircuit)
      (counts : Counts) (e : Q) (w w' : W) :
  transpile (backend self) circuit = Ok tc ->
  run (backend self) tc (shots self) None w = (Ok counts, w') ->
  expectation_of self counts = Ok e ->
  _execute_circuit self circuit w = (Ok e, w').
Proof.
  intros Ht Hr He. unfold _execute_circuit, try_except, bind, lift.
  rewrite Ht, Hr, He. reflexivity.
Qed.

(** [_execute_circuit] never raises: it returns the estimate, or 0.5 when
    anything inside the [try] block raised. *)
Lemma _execute_circuit_total (self : t lib) (circuit : QuantumCircuit) (w : W) :
  exists e w',
    _execute_circuit self circuit w = (Ok e, w') /\
    (e = 0.5 \/
     exists tc counts,
       transpile (backend self) circuit = Ok tc /\
       run (backend self) tc (shots self) None w = (Ok counts, w') /\
       expectation_of self counts = Ok e).
Proof.
  unfold _execute_circuit, try_except, bind, lift, ret.
  destruct (transpile (backend self) circuit) as [tc|ex] eqn:Ht.
  - destruct (run (backend self) tc (shots self) None w) as [[counts|ex] w1] eqn:Hr.
    + destruct (expectation_of self counts) as [e|ex] eqn:He.
      * exists e, w1. split; [reflexivity|]. right. exists tc, counts. auto.
      * exists 0.5, w1. split; [reflexivity|]. left. reflexivity.
    + exists 0.5, w1. split; [reflexivity|]. left. reflexivity.
  - exists 0.5, w. split; [reflexivity|]. left. reflexivity.
Qed.

End Estimator.

(** C8.  For every distribution over bitstrings of length [num_qubits] with
    a positive shot total that the backend returns, the expectation
    [_execute_circuit] computes is the shot-count-weighted average of each
    outcome's unsigned binary value divided by [2^num_qubits - 1], and it lies
    in [[0, 1]]. *)
Theorem execute_circuit_is_weighted_normalised_value
        (W : Type) (lib : @CustomQuantumYieldPredictor.Imports W)
        (self : CustomQuantumYieldPredictor.t lib)
        (circuit tc : QuantumCircuit) (counts : Counts) (w w' : W) :
  (0 < CustomQuantumYieldPredictor.num_qubits self)%nat ->
  transpile (CustomQuantumYieldPredictor.backend self) circuit = Ok tc ->
  run (CustomQuantumYieldPredictor.backend self) tc
      (CustomQuantumYieldPredictor.shots self) None w = (Ok counts, w') ->
  well_formed (CustomQuantumYieldPredictor.num_qubits self) counts ->
  (0 < py_sum (values counts))%nat ->
  exists e,
    CustomQuantumYieldPredictor._execute_circuit self circuit w = (Ok e, w') /\
    e == weighted_average
           (normalised_value (CustomQuantumYieldPredictor.num_qubits self))
           counts /\
    0 <= e <= 1.
Proof.
  intros Hn Ht Hr Hwf Htotal.
  destruct (@expectation_of_average W lib self counts Hn Hwf Htotal)
    as (e & He & Havg & Hrange).
  exists e. split; [|split; assumption].
  apply _execute_circuit_ok with (tc := tc) (counts := counts); assumption.
Qed.

Lemma execute_circuit_is_weighted_normalised_value_witness :
  exists e,
    CustomQuantumYieldPredictor._execute_circuit
      (CustomQuantumYieldPredictor.__init__
         (recording_imports (recording_backend four_bit_counts)) 1 None 8)
      (new_circuit 4) []
    = (Ok e, ["backend.run"%string]) /\
    e == weighted_average (normalised_value 4) four_bit_counts /\
    0 <= e <= 1.
Proof.
  eapply (@execute_circuit_is_weighted_normalised_value (list string)
            (recording_imports (recording_backend four_bit_counts))
            (CustomQuantumYieldPredictor.__init__
               (recording_imports (recording_backend four_bit_counts)) 1 None 8)
            (new_circuit 4)).
  - vm_compute. lia.
  - reflexivity.
  - reflexivity.
  - repeat constructor.
  - vm_compute. lia.
Defined.

(** The estimate on a sample: (0*1 + 5*3 + 15*4) / 15 / 8 = 5/8. *)
Example execute_circuit_sample :
  exists e,
    CustomQuantumYieldPredictor._execute_circuit
      (CustomQuantumYieldPredictor.__init__
         (recording_imports (recording_backend four_bit_counts)) 1 None 8)
      (new_circuit 4) []
    = (Ok e, ["backend.run"%string]) /\ e == 0.625.
Proof. eexists. split; vm_compute; reflexivity. Qed.

(* ------------------------------------------------------------------ *)
(** ** Backend failures inside the cost function                       *)
(* ------------------------------------------------------------------ *)

Section CostFunction.
Import CustomQuantumYieldPredictor.
Context {W : Type} (lib : @Imports W).


(** The accumulation loop of [_cost_function] goes through whatever the
    backend does, as long as the circuits can be built. *)
Lemma cost_loop_total (self : t lib) (parameters : list Q)
      (samples : list (list Q * npfloat)) :
  (forall x y, In (x, y) samples ->
               exists c, _create_circuit self x parameters = Ok c) ->
  forall acc w,
  exists total w',
    for_each_M samples acc
      (fun total_cost (sample : list Q * npfloat) =>
         let (x_sample, y_target) := sample in
         circuit <- lift (_create_circuit self x_sample parameters) ;;
         prediction <- _execute_circuit self circuit ;;
         let cost := np_square (np_sub (finite prediction) y_target) in
         ret (np_add total_cost cost)) w = (Ok total, w').
Proof.
  induction samples as [|[x y] samples IH]; intros Hbuild acc w.
  - exists acc, w. reflexivity.
  - destruct (Hbuild x y) as (c & Hc); [left; reflexivity|].
    destruct (_execute_circuit_total self c w) as (e & w1 & He & _).
    cbn [for_each_M]. unfold bind at 1. unfold bind at 1. unfold lift at 1.
    rewrite Hc. unfold bind at 1. rewrite He. unfold ret at 1.
    apply IH. intros x' y' Hin. apply (Hbuild x' y'). right. exact Hin.
Qed.

Lemma _cost_function_total (self : t lib) (parameters : list Q)
      (X : list (list Q)) (y : list npfloat) (w : W) :
  X <> [] ->
  (forall x, In x X -> exists c, _create_circuit self x parameters = Ok c) ->
  exists cost w', _cost_function self parameters X y w = (Ok cost, w').
Proof.
  intros Hne Hbuild. unfold _cost_function.
  destruct (@cost_loop_total self parameters (combine X y)) with (acc := finite 0) (w := w)
    as (total & w' & Hloop).
  { intros x0 y0 Hin. apply Hbuild. apply in_combine_l in Hin. exact Hin. }
  unfold bind at 1. cbv zeta in Hloop. rewrite Hloop.
  destruct X as [|x0 X]; [congruence|].
  eexists. eexists. reflexivity.
Qed.

End CostFunction.



(* ------------------------------------------------------------------ *)
(** ** fit and predict                                                 *)
(* ------------------------------------------------------------------ *)









Section Regressor.
Import CustomQuantumYieldPredictor.
Context {W : Type} (lib : @Imports W).


(** The converse: [fit] goes through when each library call does. *)
Lemma fit_run (X : list (list Q)) (y : list Q) (self0 : t lib) (w0 wa w1 : W)
      (sc : Scaler lib) (Xs : list (list Q)) (lo hi : Q) (init : list Q)
      (res : OptimizeResult) :
  fit_transform lib (scaler self0) X = Ok (sc, Xs) ->
  np_min y = Ok lo -> np_max y = Ok hi ->
  np_random_uniform lib (num_parameters self0) w0 = (Ok init, wa) ->
  minimize lib
    (fun p => _cost_function (set_y_range lo hi (set_scaler sc self0)) p Xs
                (map (fun v => np_true_divide (v - lo) (hi - lo)) y))
    init maxiter wa = (Ok res, w1) ->
  fit X y (self0, w0)
  = (Ok tt, (set_parameters (x res) (set_y_range lo hi (set_scaler sc self0)), w1)).
Proof.
  intros Eft Elo Ehi Eu Em.
  unfold fit, bind, get_self, set_self, lift, in_world. simpl.
  rewrite Eft, Elo, Ehi. simpl. rewrite Eu. simpl. rewrite Em. reflexivity.
Qed.





End Regressor.

Section RegressorClaims.
Import CustomQuantumYieldPredictor.



(** With a broken backend and targets 3 and 7 every prediction is the
    midpoint 5. *)
Example predict_midpoint_on_broken_backend :
  exists self1 log preds log',
    fit constant_X varied_y (sample_predictor broken_backend, [])
    = (Ok tt, (self1, log)) /\
    predict self1 query_X [] = (Ok preds, log') /\
    Forall (fun p => p == 5) preds.
Proof.
  do 4 eexists. split; [vm_compute; reflexivity|].
  split; [vm_compute; reflexivity|].
  repeat constructor.
Qed.




End RegressorClaims.

(* ------------------------------------------------------------------ *)
(** ** Seeds                                                           *)
(* ------------------------------------------------------------------ *)

(** [run_circuit] reads the backend and the shot count of its configuration
    and nothing else. *)
Lemma run_circuit_reads_backend_and_shots
      (W : Type) (cfg : quantum_backend.backend_config W) (level : nat) (seed : Z)
      (circuit : QuantumCircuit) (w : W) :
  quantum_backend.run_circuit circuit
    (quantum_backend.mkConfig (quantum_backend.backend cfg)
       (quantum_backend.shots cfg) level seed) w
  = quantum_backend.run_circuit circuit cfg w.
Proof. reflexivity. Qed.

(** The sampler double is deterministic for a fixed seed. *)
Lemma seedable_backend_deterministic (c : QuantumCircuit) (shots : nat) (seed : Z)
      (state1 state2 : nat) :
  fst (run seedable_backend c shots (Some seed) state1)
  = fst (run seedable_backend c shots (Some seed) state2).
Proof. reflexivity. Qed.

(** C2.  The configuration returned by [get_quantum_backend] carries the
    seed 42, and the sampler is deterministic under a seed; yet two
    successive calls of [run_circuit] with that configuration give different
    distributions, because [run_circuit] runs the backend without a seed.
    Likewise [fit] followed by [predict], run twice on the same data, gives
    different predictions: neither takes or sets a seed. *)
Theorem run_circuit_drops_seed :
  let cfg := quantum_backend.get_quantum_backend
               (fun _ => seedable_backend) "Simulator" 1024 in
  quantum_backend.seed_simulator cfg = 42%Z /\
  (exists first second state,
      quantum_backend.run_circuit (new_circuit 1) cfg 0%nat = (Ok first, state) /\
      quantum_backend.run_circuit (new_circuit 1) cfg state = (Ok second, S state) /\
      first <> second) /\
  (exists preds1 preds2 state1 state2,
      fit_then_predict entropy_imports constant_X varied_y query_X 0%nat
        = (Ok preds1, state1) /\
      fit_then_predict entropy_imports constant_X varied_y query_X state1
        = (Ok preds2, state2) /\
      ~ Forall2 Qeq preds1 preds2).
Proof.
  split; [reflexivity|]. split.
  - do 3 eexists. split; [vm_compute; reflexivity|].
    split; [vm_compute; reflexivity|].
    vm_compute. intros H. discriminate H.
  - do 4 eexists. split; [vm_compute; reflexivity|].
    split; [vm_compute; reflexivity|].
    intros H. inversion H as [|p1 p2 l1 l2 Hp _]; subst.
    vm_compute in Hp. discriminate Hp.
Qed.

(* ================================================================== *)
(** * Further properties of the code                                   *)
(* ================================================================== *)

(** ** Circuit builders *)

(** A loop of in-range gate calls appends exactly one instruction per
    item, in order. *)
Lemma for_each_append_exact {A} (g : A -> instruction) (xs : list A) :
  forall qc,
    (forall a, In a xs ->
               forallb (fun q => q <? qc_num_qubits qc)%nat (qargs (g a)) = true) ->
    for_each xs qc (fun qc a => append (g a) qc)
    = Ok (mkCircuit (qc_num_qubits qc) (qc_data qc ++ map g xs)).
Proof.
  induction xs as [|a xs IH]; intros qc Hr; simpl.
  - rewrite app_nil_r. destruct qc. reflexivity.
  - rewrite append_in_range by (apply Hr; left; reflexivity). simpl.
    rewrite IH.
    + simpl. rewrite <- app_assoc. reflexivity.
    + intros b Hb. simpl. apply Hr. right. exact Hb.
Qed.

(** A loop of gate calls stops with [CircuitError] at the first item whose
    index is out of range. *)
Lemma for_each_append_out_of_range {A} (g : A -> instruction)
      (before : list A) (bad : A) (after : list A) :
  forall qc,
    (forall a, In a before ->
               forallb (fun q => q <? qc_num_qubits qc)%nat (qargs (g a)) = true) ->
    forallb (fun q => q <? qc_num_qubits qc)%nat (qargs (g bad)) = false ->
    for_each (before ++ bad :: after) qc (fun qc a => append (g a) qc)
    = Raise (CircuitError "Index out of range.").
Proof.
  induction before as [|a before IH]; intros qc Hr Hbad; simpl.
  - unfold append. rewrite Hbad. reflexivity.
  - rewrite append_in_range by (apply Hr; left; reflexivity). simpl.
    apply IH.
    + intros b Hb. simpl. apply Hr. right. exact Hb.
    + simpl. exact Hbad.
Qed.

Section AllocatorCircuit.
Import QuantumIrrigationOptimizer.
Context {W : Type}.



End AllocatorCircuit.



Section ClassifierCircuit.
Import QuantumPestForecaster.
Context {W : Type}.

(** The encoding loop appends the two rotations of each feature while the
    qubit index is in range. *)
Lemma encoding_loop_exact (n : nat) (features : list Q) :
  forall start data,
    (start + List.length features <= n)%nat ->
    for_each (combine (seq start (List.length features)) features)
      (mkCircuit n data)
      (fun qc (ifeat : nat * Q) =>
         let (i, feature) := ifeat in
         qc <~ append (ry (pi_times feature) i) qc ;;
         append (rz (pi_times (feature * 0.5)) i) qc)
    = Ok (mkCircuit n
            (data ++ flat_map
                       (fun ifeat : nat * Q =>
                          [ry (pi_times (snd ifeat)) (fst ifeat);
                           rz (pi_times (snd ifeat * 0.5)) (fst ifeat)])
                       (combine (seq start (List.length features)) features))).
Proof.
  induction features as [|f fs IH]; intros start data Hlen; simpl.
  - rewrite app_nil_r. reflexivity.
  - simpl in Hlen.
    assert (Hin : (start <? n)%nat = true) by (apply Nat.ltb_lt; lia).
    unfold append at 1. simpl. rewrite Hin. simpl.
    unfold append at 1. simpl. rewrite Hin. simpl.
    rewrite IH by lia. rewrite <- !app_assoc. reflexivity.
Qed.

(** With more features than qubits the loop raises at the first index that
    is not a qubit. *)
Lemma encoding_loop_out_of_range (n : nat) (features : list Q) :
  forall start data,
    (start <= n)%nat ->
    (n < start + List.length features)%nat ->
    for_each (combine (seq start (List.length features)) features)
      (mkCircuit n data)
      (fun qc (ifeat : nat * Q) =>
         let (i, feature) := ifeat in
         qc <~ append (ry (pi_times feature) i) qc ;;
         append (rz (pi_times (feature * 0.5)) i) qc)
    = Raise (CircuitError "Index out of range.").
Proof.
  induction features as [|f fs IH]; intros start data Hstart Hlen; simpl in *.
  - lia.
  - destruct (Nat.ltb_spec start n) as [Hin|Hout].
    + apply Nat.ltb_lt in Hin.
      unfold append at 1. simpl. rewrite Hin. simpl.
      unfold append at 1. simpl. rewrite Hin. simpl.
      apply Nat.ltb_lt in Hin. apply IH; lia.
    + assert (Hbad : (start <? n)%nat = false) by (apply Nat.ltb_ge; lia).
      unfold append at 1. simpl. rewrite Hbad. reflexivity.
Qed.

End ClassifierCircuit.

(** X2.  [_create_feature_map_circuit] succeeds exactly when there are no
    more features than qubits.  It then returns, on [n_qubits] qubits, an
    [ry(f * pi)] and an [rz(f * pi * 0.5)] on qubit [i] for each feature [f]
    at position [i], followed, when there is more than one qubit, by a
    barrier and a [cx] on each pair of neighbouring qubits, and by the final
    measurement; qubits beyond the features get no rotation.  With more
    features than qubits it raises [CircuitError]. *)
Theorem create_feature_map_circuit_closed_form
        (W : Type) (self : QuantumPestForecaster.t W) (features : list Q) :
  QuantumPestForecaster._create_feature_map_circuit self features
  = if (List.length features <=? QuantumPestForecaster.n_qubits self)%nat
    then Ok (mkCircuit (QuantumPestForecaster.n_qubits self)
               (encoding_gates features
                ++ entangling_gates (QuantumPestForecaster.n_qubits self)
                ++ [measure_all]))
    else Raise (CircuitError "Index out of range.").
Proof.
  unfold QuantumPestForecaster._create_feature_map_circuit, enumerate, new_circuit.
  destruct (Nat.leb_spec (List.length features) (QuantumPestForecaster.n_qubits self))
    as [Hle|Hgt].
  - rewrite (@encoding_loop_exact (QuantumPestForecaster.n_qubits self) features 0 [])
      by lia.
    simpl. unfold encoding_gates, entangling_gates, enumerate.
    destruct (1 <? QuantumPestForecaster.n_qubits self)%nat eqn:Hn.
    + unfold append at 1. simpl.
      rewrite (for_each_append_exact (fun i => cx i (i + 1))).
      2:{ intros i Hi. apply in_seq in Hi. simpl.
          rewrite andb_true_r, andb_true_iff, !Nat.ltb_lt. lia. }
      simpl. unfold append. simpl. rewrite <- !app_assoc. reflexivity.
    + simpl. unfold append. simpl. reflexivity.
  - rewrite (@encoding_loop_out_of_range (QuantumPestForecaster.n_qubits self)
               features 0 []) by lia.
    reflexivity.
Qed.

Section RegressorCircuit.
Import CustomQuantumYieldPredictor.
Context {W : Type} (lib : @Imports W).

Lemma _create_feature_map_exact (self : t lib) (x : list Q) :
  _create_feature_map self x
  = Ok (mkCircuit (num_qubits self) (rotation_gates (num_qubits self) x)).
Proof.
  unfold _create_feature_map, rotation_gates, new_circuit.
  rewrite (for_each_append_exact (fun i => ry (pi_times (nth i x 0)) i)).
  - reflexivity.
  - intros i Hi. apply in_seq in Hi. simpl.
    rewrite andb_true_r, Nat.ltb_lt. lia.
Qed.

End RegressorCircuit.

(** X3.  [_create_feature_map] never raises, whatever the length of the
    feature vector: it puts an [ry(x[i] * pi)] on qubit [i] for the first
    [min(len(x), num_qubits)] features and nothing else, so surplus features
    are dropped and surplus qubits get no rotation. *)
Theorem create_feature_map_closed_form
        (W : Type) (lib : @CustomQuantumYieldPredictor.Imports W)
        (self : CustomQuantumYieldPredictor.t lib) (x : list Q) :
  CustomQuantumYieldPredictor._create_feature_map self x
  = Ok (mkCircuit (CustomQuantumYieldPredictor.num_qubits self)
          (rotation_gates (CustomQuantumYieldPredictor.num_qubits self) x)) /\
  List.length (rotation_gates (CustomQuantumYieldPredictor.num_qubits self) x)
  = Nat.min (List.length x) (CustomQuantumYieldPredictor.num_qubits self).
Proof.
  split.
  - apply _create_feature_map_exact.
  - unfold rotation_gates. rewrite length_map, length_seq. reflexivity.
Qed.

(** X4.  [_create_circuit] raises exactly when binding the parameters into
    the ansatz raises, and passes that exception on; otherwise the circuit
    is the feature rotations, then the bound ansatz, then the
    measurement. *)
Theorem create_circuit_closed_form
        (W : Type) (lib : @CustomQuantumYieldPredictor.Imports W)
        (self : CustomQuantumYieldPredictor.t lib) (x parameters : list Q) :
  CustomQuantumYieldPredictor._create_circuit self x parameters
  = match CustomQuantumYieldPredictor.assign_parameters
            (CustomQuantumYieldPredictor.ansatz self) parameters with
    | Ok bound =>
        Ok (mkCircuit (CustomQuantumYieldPredictor.num_qubits self)
              (rotation_gates (CustomQuantumYieldPredictor.num_qubits self) x
               ++ bound ++ [measure_all]))
    | Raise e => Raise e
    end.
Proof.
  unfold CustomQuantumYieldPredictor._create_circuit.
  rewrite _create_feature_map_exact. simpl.
  destruct (CustomQuantumYieldPredictor.assign_parameters
              (CustomQuantumYieldPredictor.ansatz self) parameters)
    as [bound|e]; simpl; [|reflexivity].
  unfold append. simpl. rewrite <- app_assoc. reflexivity.
Qed.

(** X5.  A regressor constructed without an explicit qubit count has
    [max(4, num_features)] qubits, so its feature map encodes every feature
    of a vector of [num_features] values: one rotation per feature. *)
Theorem default_constructor_encodes_every_feature
        (W : Type) (lib : @CustomQuantumYieldPredictor.Imports W)
        (shots : nat) (x : list Q) :
  CustomQuantumYieldPredictor._create_feature_map
    (CustomQuantumYieldPredictor.__init__ lib (List.length x) None shots) x
  = Ok (mkCircuit (Nat.max 4 (List.length x))
          (map (fun i => ry (pi_times (nth i x 0)) i) (seq 0 (List.length x)))).
Proof.
  rewrite _create_feature_map_exact. unfold rotation_gates.
  change (CustomQuantumYieldPredictor.num_qubits
            (CustomQuantumYieldPredictor.__init__ lib (List.length x) None shots))
    with (Nat.max 4 (List.length x)).
  rewrite Nat.min_l by lia. reflexivity.
Qed.

(** ** The classifier: errors, recommendations, monotonicity *)

(** X6.  Called with a number of features other than its qubit count,
    [forecast] raises [ValueError] naming both numbers, before building a
    circuit or running the simulator. *)
Theorem forecast_rejects_wrong_feature_count
        (W : Type) (self : QuantumPestForecaster.t W) (features : list Q) (w : W) :
  List.length features <> QuantumPestForecaster.n_qubits self ->
  QuantumPestForecaster.forecast self features w
  = (Raise (ValueError
              ("Expected " ++ str (QuantumPestForecaster.n_qubits self)
               ++ " features, but got " ++ str (List.length features))%string),
     w).
Proof.
  intros Hlen. unfold QuantumPestForecaster.forecast.
  apply Nat.eqb_neq in Hlen. rewrite Hlen. reflexivity.
Qed.

Lemma forecast_rejects_wrong_feature_count_witness :
  QuantumPestForecaster.forecast
    (QuantumPestForecaster.__init__ [] (recording_backend sample_counts))
    two_features []
  = (Raise (ValueError "Expected 3 features, but got 2"), []).
Proof.
  apply (@forecast_rejects_wrong_feature_count (list string)
           (QuantumPestForecaster.__init__ [] (recording_backend sample_counts))
           two_features []).
  vm_compute. discriminate.
Defined.

(** X7.  The recommendation tiers switch at 0.7 and 0.4 while the levels
    switch at 0.65 and 0.35, so the two can disagree: a score above 0.65 and
    not above 0.7 is reported as high risk with the "Warning" (medium)
    recommendations, and a score above 0.35 and not above 0.4 as medium risk
    with the "All Clear" (low) recommendations. *)
Theorem forecast_level_and_tier_can_disagree
        (W : Type) (self : QuantumPestForecaster.t W) (features : list Q)
        (w w' : W) (score : Q) (level : QuantumPestForecaster.risk_level)
        (recs : list string) (c : QuantumCircuit) (counts : Counts) :
  QuantumPestForecaster.forecast self features w
    = (Ok (score, level, recs, c, counts), w') ->
  (0.65 < score /\ score <= 0.7 ->
   level = QuantumPestForecaster.HighRisk /\
   recs = QuantumPestForecaster.medium_tier) /\
  (0.35 < score /\ score <= 0.4 ->
   level = QuantumPestForecaster.MediumRisk /\
   recs = QuantumPestForecaster.low_tier).
Proof.
  intros H.
  pose proof (forecast_recommendations_are_tier_rules _ _ _ H) as Hrecs.
  apply forecast_inv in H as (stage & _ & _ & -> & _).
  destruct (classify_thresholds score) as (Hh & Hm & _).
  subst recs. unfold tier_rules. split; intros [Hlo Hhi].
  - split; [apply Hh; exact Hlo|].
    assert (E7 : Qgtb score 0.7 = false) by (apply Qgtb_le; exact Hhi).
    assert (E4 : Qgtb score 0.4 = true) by (apply Qgtb_lt; lra).
    rewrite E7, E4. reflexivity.
  - split; [apply Hm; split; [exact Hlo | lra]|].
    assert (E7 : Qgtb score 0.7 = false) by (apply Qgtb_le; lra).
    assert (E4 : Qgtb score 0.4 = false) by (apply Qgtb_le; exact Hhi).
    rewrite E7, E4. reflexivity.
Qed.

Lemma forecast_level_and_tier_can_disagree_witness :
  exists score level recs c,
    QuantumPestForecaster.forecast
      (QuantumPestForecaster.__init__ [] (scripted_backend sample_counts))
      slider_features tt
      = (Ok (score, level, recs, c, sample_counts), tt) /\
    level = QuantumPestForecaster.HighRisk /\
    recs = QuantumPestForecaster.medium_tier.
Proof.
  do 4 eexists. split; [vm_compute; reflexivity|].
  eapply (@forecast_level_and_tier_can_disagree unit
            (QuantumPestForecaster.__init__ [] (scripted_backend sample_counts))
            slider_features tt tt).
  - vm_compute. reflexivity.
  - split; vm_compute; [reflexivity | discriminate].
Defined.

(** X8.  The recommendation list of [forecast] is never empty: it has
    exactly three entries when the score is above 0.4 and exactly two
    otherwise. *)
Theorem forecast_recommendation_count
        (W : Type) (self : QuantumPestForecaster.t W) (features : list Q)
        (w w' : W) (score : Q) (level : QuantumPestForecaster.risk_level)
        (recs : list string) (c : QuantumCircuit) (counts : Counts) :
  QuantumPestForecaster.forecast self features w
    = (Ok (score, level, recs, c, counts), w') ->
  List.length recs = (if Qgtb score 0.4 then 3 else 2)%nat.
Proof.
  intros H.
  rewrite (forecast_recommendations_are_tier_rules _ _ _ H).
  unfold tier_rules.
  destruct (Qgtb score 0.7) eqn:E7; destruct (Qgtb score 0.4) eqn:E4;
    try reflexivity.
  apply Qgtb_lt in E7. apply Qgtb_le in E4. lra.
Qed.

Lemma forecast_recommendation_count_witness :
  exists score level recs c,
    QuantumPestForecaster.forecast
      (QuantumPestForecaster.__init__ [] (scripted_backend boundary_counts))
      slider_features tt
      = (Ok (score, level, recs, c, boundary_counts), tt) /\
    List.length recs = (if Qgtb score 0.4 then 3 else 2)%nat /\
    List.length recs = 3%nat.
Proof.
  do 4 eexists. split; [vm_compute; reflexivity|].
  split; [|vm_compute; reflexivity].
  eapply (@forecast_recommendation_count unit
            (QuantumPestForecaster.__init__ [] (scripted_backend boundary_counts))
            slider_features tt tt).
  vm_compute. reflexivity.
Defined.

Lemma weighted_sum_mono (f : string -> Q) (counts1 counts2 : Counts) :
  Forall2 (fun a b : string * nat => snd a = snd b /\ f (fst a) <= f (fst b))
          counts1 counts2 ->
  weighted_sum f counts1 <= weighted_sum f counts2.
Proof.
  induction 1 as [|[k1 c1] [k2 c2] l1 l2 [Hc Hf] _ IH]; simpl in *.
  - apply Qle_refl.
  - subst c2. pose proof (Q_of_nat_nonneg c1) as Hc. nra.
Qed.

Lemma same_shots_same_total (counts1 counts2 : Counts) (R : string -> string -> Prop) :
  Forall2 (fun a b : string * nat => snd a = snd b /\ R (fst a) (fst b))
          counts1 counts2 ->
  values counts1 = values counts2.
Proof.
  induction 1 as [|[k1 c1] [k2 c2] l1 l2 [Hc _] _ IH]; simpl in *.
  - reflexivity.
  - unfold values in *. simpl. rewrite Hc, IH. reflexivity.
Qed.

Section ClassifierScore.
Import QuantumPestForecaster.
Context {W : Type}.

(** The score as a quotient of sums, for keys of any length. *)
Lemma risk_score_of_value (self : t W) (counts : Counts) :
  (0 < n_qubits self)%nat ->
  (0 < py_sum (values counts))%nat ->
  exists score,
    risk_score_of self counts = Ok score /\
    score == weighted_sum
               (fun k => Q_of_nat (ones k) / Q_of_nat (n_qubits self)) counts
             / Q_of_nat (py_sum (values counts)).
Proof.
  intros Hn Htotal. unfold risk_score_of, risk_value_of.
  destruct (@risk_value_loop W self counts Hn 0) as (v & Ev & Hv).
  cbv zeta in Ev. rewrite Ev. simpl.
  rewrite py_truediv_pos by (apply Q_of_nat_pos; exact Htotal).
  eexists. split; [reflexivity|].
  rewrite Hv, Qplus_0_l. reflexivity.
Qed.

End ClassifierScore.

(** X9.  The risk score does not decrease when shots move to outcomes with
    more ['1'] bits: for two distributions with the same shot counts,
    position by position, in which each key of the second has at least as
    many ['1'] characters as the corresponding key of the first, the score of
    the second is at least the score of the first. *)
Theorem risk_score_monotone_in_ones
        (W : Type) (self : QuantumPestForecaster.t W) (counts1 counts2 : Counts) :
  (0 < QuantumPestForecaster.n_qubits self)%nat ->
  (0 < py_sum (values counts1))%nat ->
  Forall2 (fun a b : string * nat =>
             snd a = snd b /\ (ones (fst a) <= ones (fst b))%nat)
          counts1 counts2 ->
  exists score1 score2,
    QuantumPestForecaster.risk_score_of self counts1 = Ok score1 /\
    QuantumPestForecaster.risk_score_of self counts2 = Ok score2 /\
    score1 <= score2.
Proof.
  intros Hn Htotal Hrel.
  pose proof (@same_shots_same_total counts1 counts2
                (fun a b => (ones a <= ones b)%nat) Hrel) as Hvalues.
  assert (Htotal2 : (0 < py_sum (values counts2))%nat) by (rewrite <- Hvalues; exact Htotal).
  destruct (@risk_score_of_value W self counts1 Hn Htotal) as (s1 & E1 & H1).
  destruct (@risk_score_of_value W self counts2 Hn Htotal2) as (s2 & E2 & H2).
  exists s1, s2. split; [exact E1|]. split; [exact E2|].
  rewrite H1, H2, <- Hvalues.
  pose proof (Q_of_nat_pos Htotal) as Hpos.
  pose proof (Q_of_nat_pos Hn) as Hnpos.
  apply Qmult_le_compat_r.
  - apply weighted_sum_mono.
    eapply Forall2_impl; [|exact Hrel].
    intros a b [Hc Ho]. split; [exact Hc|]. cbv beta.
    apply Qmult_le_compat_r.
    + apply Q_of_nat_le. exact Ho.
    + apply Qlt_le_weak, Qinv_lt_0_compat. exact Hnpos.
  - apply Qlt_le_weak, Qinv_lt_0_compat. exact Hpos.
Qed.

Lemma risk_score_monotone_in_ones_witness :
  exists score1 score2,
    QuantumPestForecaster.risk_score_of
      (QuantumPestForecaster.__init__ [] (@scripted_backend unit sample_counts))
      sparse_counts = Ok score1 /\
    QuantumPestForecaster.risk_score_of
      (QuantumPestForecaster.__init__ [] (@scripted_backend unit sample_counts))
      dense_counts = Ok score2 /\
    score1 <= score2.
Proof.
  apply (@risk_score_monotone_in_ones unit
           (QuantumPestForecaster.__init__ [] (scripted_backend sample_counts))
           sparse_counts dense_counts).
  - vm_compute. lia.
  - vm_compute. lia.
  - repeat constructor.
Defined.

(** X10.  When the simulator returns an empty distribution, [forecast]
    raises [ZeroDivisionError]: the shot total it divides by is zero. *)
Theorem forecast_raises_on_empty_distribution
        (W : Type) (self : QuantumPestForecaster.t W)
        (features normalized : list Q) (c tc : QuantumCircuit) (w w' : W) :
  List.length features = QuantumPestForecaster.n_qubits self ->
  np_divide features [45; 100; 100] = Ok normalized ->
  QuantumPestForecaster._create_feature_map_circuit self normalized = Ok c ->
  transpile (QuantumPestForecaster.simulator self) c = Ok tc ->
  run (QuantumPestForecaster.simulator self) tc
      (QuantumPestForecaster.shots self) None w = (Ok [], w') ->
  QuantumPestForecaster.forecast self features w
  = (Raise (ZeroDivisionError "division by zero"), w').
Proof.
  intros Hlen Hn Hc Ht Hr.
  unfold QuantumPestForecaster.forecast, bind, lift, ret.
  rewrite Hlen, Nat.eqb_refl. simpl.
  rewrite Hn, Hc, Ht, Hr. reflexivity.
Qed.

Lemma forecast_raises_on_empty_distribution_witness :
  QuantumPestForecaster.forecast
    (QuantumPestForecaster.__init__ [] (recording_backend []))
    slider_features []
  = (Raise (ZeroDivisionError "division by zero"), ["backend.run"%string]).
Proof.
  eapply (@forecast_raises_on_empty_distribution (list string)
            (QuantumPestForecaster.__init__ [] (recording_backend []))
            slider_features).
  - reflexivity.
  - reflexivity.
  - reflexivity.
  - reflexivity.
  - reflexivity.
Defined.

(** ** The allocator: empty distributions, truncation, water saved *)

Lemma optimize_inv (W : Type) (self : QuantumIrrigationOptimizer.t W)
      (zone_data : list QuantumIrrigationOptimizer.Zone)
      (allocation : list Q) (counts : Counts) (c : QuantumCircuit) (w w' : W) :
  QuantumIrrigationOptimizer.optimize self zone_data w
    = (Ok (allocation, counts, c), w') ->
  exists best,
    py_max (counts_get counts) (keys counts) = Ok best /\
    allocation = QuantumIrrigationOptimizer.decode zone_data best.
Proof.
  unfold QuantumIrrigationOptimizer.optimize, bind, lift, ret. intros H.
  repeat pipeline_step H.
  injection H as <- <- <- <-.
  eexists. split; [eassumption | reflexivity].
Qed.



(** X12.  [optimize] zips the zones with the characters of the winning
    key, so the allocation has as many entries as the shorter of the two:
    never more than there are zones, and when the key is shorter than the zone
    list the trailing zones get no entry at all. *)
Theorem optimize_allocation_length
        (W : Type) (self : QuantumIrrigationOptimizer.t W)
        (zone_data : list QuantumIrrigationOptimizer.Zone)
        (allocation : list Q) (counts : Counts) (c : QuantumCircuit) (w w' : W) :
  QuantumIrrigationOptimizer.optimize self zone_data w
    = (Ok (allocation, counts, c), w') ->
  exists best,
    first_maximum counts best /\
    List.length allocation
    = Nat.min (List.length zone_data) (String.length best).
Proof.
  intros H. destruct (optimize_inv _ _ _ H) as (best & Hmax & ->).
  exists best. split.
  - destruct counts as [|kv rest]; [discriminate Hmax|].
    destruct (@py_max_first_maximum (kv :: rest)) as (best' & Hmax' & Hfirst);
      [discriminate|].
    rewrite Hmax in Hmax'. injection Hmax' as <-. exact Hfirst.
  - unfold QuantumIrrigationOptimizer.decode.
    rewrite length_map, length_combine, length_list_ascii. reflexivity.
Qed.

Lemma optimize_allocation_length_witness :
  exists allocation c best,
    QuantumIrrigationOptimizer.optimize
      (QuantumIrrigationOptimizer.__init__ test_settings
         (scripted_backend two_bit_counts)) four_zones tt
    = (Ok (allocation, two_bit_counts, c), tt) /\
    first_maximum two_bit_counts best /\
    List.length allocation = Nat.min (List.length four_zones) (String.length best) /\
    List.length allocation = 2%nat.
Proof.
  assert (Hrun : exists allocation c,
             QuantumIrrigationOptimizer.optimize
               (QuantumIrrigationOptimizer.__init__ test_settings
                  (scripted_backend two_bit_counts)) four_zones tt
             = (Ok (allocation, two_bit_counts, c), tt) /\
             List.length allocation = 2%nat).
  { do 2 eexists. split; vm_compute; reflexivity. }
  destruct Hrun as (allocation & c & Hrun & Hlen).
  destruct (@optimize_allocation_length unit _ _ _ _ _ _ _ Hrun)
    as (best & Hfirst & Hmin).
  exists allocation, c, best. repeat split; assumption.
Defined.

Lemma fold_left_Qplus_shift (xs : list Q) :
  forall a, fold_left Qplus xs a == a + fold_left Qplus xs 0.
Proof.
  induction xs as [|v xs IH]; intros a; simpl.
  - ring.
  - rewrite IH, (IH (0 + v)). ring.
Qed.






(** ** The regressor: untrained models, failed fits, cost values *)

(** What [fit] leaves alone, whether it returns or raises. *)
Lemma fit_outcome
      (W : Type) (lib : @CustomQuantumYieldPredictor.Imports W)
      (X : list (list Q)) (y : list Q)
      (self0 : CustomQuantumYieldPredictor.t lib) (w0 : W) :
  same_hyperparameters
    (fst (snd (CustomQuantumYieldPredictor.fit X y (self0, w0)))) self0 /\
  (forall e,
      fst (CustomQuantumYieldPredictor.fit X y (self0, w0)) = Raise e ->
      CustomQuantumYieldPredictor.parameters
        (fst (snd (CustomQuantumYieldPredictor.fit X y (self0, w0))))
      = CustomQuantumYieldPredictor.parameters self0).
Proof.
  unfold CustomQuantumYieldPredictor.fit, bind, get_self, set_self, lift,
    in_world, same_hyperparameters.
  simpl.
  destruct (CustomQuantumYieldPredictor.fit_transform lib
              (CustomQuantumYieldPredictor.scaler self0) X) as [[sc Xs]|ex];
    [|simpl; repeat split; reflexivity].
  destruct (np_min y) as [lo|ex]; [|simpl; repeat split; reflexivity].
  destruct (np_max y) as [hi|ex]; [|simpl; repeat split; reflexivity].
  simpl.
  destruct (CustomQuantumYieldPredictor.np_random_uniform lib
              (CustomQuantumYieldPredictor.num_parameters self0) w0)
    as [[init|ex] wa]; [|simpl; repeat split; reflexivity].
  simpl.
  match goal with
  | |- context [CustomQuantumYieldPredictor.minimize lib ?f init
                  CustomQuantumYieldPredictor.maxiter wa] =>
      destruct (CustomQuantumYieldPredictor.minimize lib f init
                  CustomQuantumYieldPredictor.maxiter wa) as [[res|ex] wb]
  end; simpl; repeat split; try reflexivity.
  intros e He. discriminate He.
Qed.

(** X14.  A regressor stays untrained until a [fit] returns: on a fresh
    model, and on the model left behind by a first [fit] that raised,
    [predict] and [score] raise [ValueError("Model must be trained first!")]
    for every input, without scaling it or running the backend. *)
Theorem model_untrained_until_fit_returns
        (W : Type) (lib : @CustomQuantumYieldPredictor.Imports W)
        (num_features : nat) (num_qubits : option nat) (shots : nat)
        (X X' : list (list Q)) (y y' : list Q) (w0 w : W) (e : exn) :
  fst (CustomQuantumYieldPredictor.fit X y
         (CustomQuantumYieldPredictor.__init__ lib num_features num_qubits shots,
          w0)) = Raise e ->
  CustomQuantumYieldPredictor.predict
    (fst (snd (CustomQuantumYieldPredictor.fit X y
                 (CustomQuantumYieldPredictor.__init__ lib num_features
                    num_qubits shots, w0)))) X' w
  = (Raise (ValueError "Model must be trained first!"), w) /\
  CustomQuantumYieldPredictor.score
    (fst (snd (CustomQuantumYieldPredictor.fit X y
                 (CustomQuantumYieldPredictor.__init__ lib num_features
                    num_qubits shots, w0)))) X' y' w
  = (Raise (ValueError "Model must be trained first!"), w) /\
  CustomQuantumYieldPredictor.predict
    (CustomQuantumYieldPredictor.__init__ lib num_features num_qubits shots) X' w
  = (Raise (ValueError "Model must be trained first!"), w).
Proof.
  intros Hfail.
  destruct (fit_outcome X y
              (CustomQuantumYieldPredictor.__init__ lib num_features num_qubits shots)
              w0) as [_ Hparams].
  specialize (Hparams e Hfail). simpl in Hparams.
  split; [|split; [|reflexivity]].
  - unfold CustomQuantumYieldPredictor.predict. rewrite Hparams. reflexivity.
  - unfold CustomQuantumYieldPredictor.score, CustomQuantumYieldPredictor.predict,
      bind.
    rewrite Hparams. reflexivity.
Qed.

Lemma model_untrained_until_fit_returns_witness :
  fst (CustomQuantumYieldPredictor.fit constant_X []
         (sample_predictor (recording_backend four_bit_counts), []))
  = Raise (ValueError "zero-size array to reduction operation minimum which has no identity") /\
  CustomQuantumYieldPredictor.predict
    (fst (snd (CustomQuantumYieldPredictor.fit constant_X []
                 (sample_predictor (recording_backend four_bit_counts), []))))
    query_X []
  = (Raise (ValueError "Model must be trained first!"), []).
Proof.
  split; [reflexivity|].
  eapply (@model_untrained_until_fit_returns (list string)
            (recording_imports (recording_backend four_bit_counts))
            1 None 8 constant_X query_X [] [] [] []).
  reflexivity.
Defined.

(** X15.  Whether it returns or raises, [fit] leaves the attributes set by
    the constructor (feature and qubit counts, shots, backend, ansatz,
    parameter count) as they were; and a [fit] that raises leaves the stored
    parameters as they were, although it may already have replaced the scaler
    and the target range. *)
Theorem fit_keeps_hyperparameters
        (W : Type) (lib : @CustomQuantumYieldPredictor.Imports W)
        (X : list (list Q)) (y : list Q)
        (self0 : CustomQuantumYieldPredictor.t lib) (w0 : W) :
  same_hyperparameters
    (fst (snd (CustomQuantumYieldPredictor.fit X y (self0, w0)))) self0 /\
  (forall e,
      fst (CustomQuantumYieldPredictor.fit X y (self0, w0)) = Raise e ->
      CustomQuantumYieldPredictor.parameters
        (fst (snd (CustomQuantumYieldPredictor.fit X y (self0, w0))))
      = CustomQuantumYieldPredictor.parameters self0).
Proof.
  split.
  - destruct (fit_outcome X y self0 w0) as [Hsame _]. exact Hsame.
  - intros e Hraise.
    destruct (fit_outcome X y self0 w0) as [_ Hparams].
    apply (Hparams e). exact Hraise.
Qed.







Lemma Qsquare_nonneg (d : Q) : 0 <= d * d.
Proof.
  destruct (Qlt_le_dec d 0) as [Hneg|Hpos].
  - setoid_replace (d * d) with ((- d) * (- d)) by ring.
    apply Qmult_le_0_compat; lra.
  - apply Qmult_le_0_compat; exact Hpos.
Qed.



Section CostBounds.
Import CustomQuantumYieldPredictor.
Context {W : Type} (lib : @Imports W).


End CostBounds.



(** ** The coefficient of determination *)

Lemma np_sum_squares_cons (v : Q) (xs : list Q) :
  np_sum_squares (v :: xs) == v * v + np_sum_squares xs.
Proof.
  unfold np_sum_squares. simpl. rewrite fold_left_Qplus_shift. ring.
Qed.

Lemma np_sum_squares_nonneg (xs : list Q) : 0 <= np_sum_squares xs.
Proof.
  induction xs as [|v xs IH].
  - apply Qle_refl.
  - rewrite np_sum_squares_cons. pose proof (Qsquare_nonneg v). lra.
Qed.





Section Score.
Import CustomQuantumYieldPredictor.
Context {W : Type} (lib : @Imports W).


Lemma score_inv (self : t lib) (X : list (list Q)) (y : list Q) (s : Q) (w w' : W) :
  score self X y w = (Ok s, w') ->
  exists preds residuals,
    predict self X w = (Ok preds, w') /\
    np_subtract y preds = Ok residuals /\
    s = match np_sum (map (fun v => np_square (np_sub (finite v) (np_mean y))) y) with
        | finite t => if Qgtb t 0 then 1 - np_sum_squares residuals / t else 0
        | pos_inf => 1
        | neg_inf | nan => 0
        end.
Proof.
  unfold score, bind, lift, ret. intros H.
  destruct (predict self X w) as [[preds|e] w1]; [|discriminate H].
  destruct (np_subtract y preds) as [residuals|e] eqn:Hsub; [|discriminate H].
  injection H as <- <-. exists preds, residuals.
  split; [reflexivity|]. split; [exact Hsub|]. reflexivity.
Qed.

End Score.

(** X18.  [score] never exceeds 1: whenever it returns, the coefficient of
    determination it returns is at most 1. *)
Theorem score_at_most_one
        (W : Type) (lib : @CustomQuantumYieldPredictor.Imports W)
        (self : CustomQuantumYieldPredictor.t lib)
        (X : list (list Q)) (y : list Q) (s : Q) (w w' : W) :
  CustomQuantumYieldPredictor.score self X y w = (Ok s, w') ->
  s <= 1.
Proof.
  intros H. apply score_inv in H as (preds & residuals & _ & _ & ->).
  destruct (np_sum _) as [t| | |]; try lra.
  destruct (Qgtb t 0) eqn:Et; [|lra].
  apply Qgtb_lt in Et.
  pose proof (np_sum_squares_nonneg residuals) as Hres.
  assert (0 <= np_sum_squares residuals / t)
    by (apply Qle_shift_div_l; [exact Et | lra]).
  lra.
Qed.



Lemma score_at_most_one_witness :
  exists model log s log',
    CustomQuantumYieldPredictor.fit constant_X varied_y
      (sample_predictor (recording_backend four_bit_counts), [])
    = (Ok tt, (model, log)) /\
    CustomQuantumYieldPredictor.score model constant_X varied_y [] = (Ok s, log') /\
    s <= 1.
Proof.
  assert (Hrun : exists model log s log',
             CustomQuantumYieldPredictor.fit constant_X varied_y
               (sample_predictor (recording_backend four_bit_counts), [])
             = (Ok tt, (model, log)) /\
             CustomQuantumYieldPredictor.score model constant_X varied_y []
             = (Ok s, log')).
  { do 4 eexists. split; vm_compute; reflexivity. }
  destruct Hrun as (model & log & s & log' & Hfit & Hscore).
  exists model, log, s, log'. split; [exact Hfit|]. split; [exact Hscore|].
  exact (@score_at_most_one (list string)
           (recording_imports (recording_backend four_bit_counts))
           model constant_X varied_y s [] log' Hscore).
Defined.




(** ** Stage advice *)

Lemma stage_lookup_recognised (stage : string) :
  match QuantumPestForecaster.stage_lookup (QuantumPestForecaster.PyStr stage) with
  | Some _ => In stage ["Germination"; "Flowering"; "Maturation"]%string
  | None => ~ In stage ["Germination"; "Flowering"; "Maturation"]%string
  end.
Proof.
  unfold QuantumPestForecaster.stage_lookup, QuantumPestForecaster.stage_recs.
  cbn [find fst].
  destruct (String.eqb_spec "Germination" stage) as [<-|Hg];
    [simpl; auto|].
  destruct (String.eqb_spec "Flowering" stage) as [<-|Hf];
    [simpl; auto|].
  destruct (String.eqb_spec "Maturation" stage) as [<-|Hm];
    [simpl; auto|].
  simpl. intros [E|[E|[E|[]]]]; congruence.
Qed.

(** X21.  Given the crop stage as a string, [_generate_recommendations]
    returns the tier rule set of the score followed by exactly one entry when
    the stage is "Germination", "Flowering" or "Maturation", and by nothing
    for any other string. *)
Theorem generate_recommendations_adds_one_for_known_stage
        (risk_score : Q) (stage : string) :
  exists addendum,
    QuantumPestForecaster._generate_recommendations risk_score
      (QuantumPestForecaster.PyStr stage)
    = (tier_rules risk_score ++ addendum)%list /\
    (In stage ["Germination"; "Flowering"; "Maturation"]%string
     <-> List.length addendum = 1%nat) /\
    (~ In stage ["Germination"; "Flowering"; "Maturation"]%string
     <-> addendum = []).
Proof.
  rewrite recommendations_for_stage.
  pose proof (stage_lookup_recognised stage) as Hstage.
  destruct (QuantumPestForecaster.stage_lookup (QuantumPestForecaster.PyStr stage))
    as [advice|].
  - exists [advice]. split; [reflexivity|]. split; split; intros H.
    + reflexivity.
    + exact Hstage.
    + contradiction.
    + discriminate H.
  - exists []. split; [reflexivity|]. split; split; intros H.
    + contradiction.
    + discriminate H.
    + reflexivity.
    + exact Hstage.
Qed.
